(** * CREDI extractor: school-name normalisation, sheet and page extraction,
      batch loop

    A shallow embedding of [credi_extractor.py]: the class
    [SchoolNameNormalizer], the two extraction routines of
    [MealOrderExtractor] and the per-file loop of
    [CrediExtractorGUI._process_files_thread].

    Python [str] values are sequences of Unicode code points and are modelled
    as [list N].  What CPython takes from its Unicode tables and from the [re]
    engine is gathered in the interface [PyLib]; the code of the repository is
    written on top of it.  Dictionaries are [gmap]s where only lookups matter
    and association lists where the iteration order matters; sets are [gset]s;
    exceptions are values of [exn] carried in a sum. *)

From Stdlib Require Import ZArith NArith Ascii String DecimalString.
From stdpp Require Import base decidable option list gmap sorting.

Local Open Scope N_scope.

(** ** Text *)

Abbreviation str := (list N).

(** Code points of a UTF-8 encoded literal (sequences of one to four bytes). *)
Fixpoint utf8 (bs : list N) : str :=
  match bs with
  | [] => []
  | b :: r =>
      if b <? 128 then b :: utf8 r
      else if b <? 224 then
        match r with
        | b2 :: r' => ((b - 192) * 64 + (b2 - 128)) :: utf8 r'
        | _ => []
        end
      else if b <? 240 then
        match r with
        | b2 :: b3 :: r' =>
            ((b - 224) * 4096 + (b2 - 128) * 64 + (b3 - 128)) :: utf8 r'
        | _ => []
        end
      else
        match r with
        | b2 :: b3 :: b4 :: r' =>
            ((b - 240) * 262144 + (b2 - 128) * 4096 + (b3 - 128) * 64
             + (b4 - 128)) :: utf8 r'
        | _ => []
        end
  end.

Definition u (s : string) : str :=
  utf8 (N_of_ascii <$> list_ascii_of_string s).

(** A Python [float]: a finite value [m * 2^e], an infinity or a NaN. *)
Inductive pyfloat :=
  | Finite (m e : Z)
  | PosInf
  | NegInf
  | NaN.

(** What the program obtains from CPython: the Unicode character database
    ([str.isspace], decimal digits, the category [Mn], NFD decomposition, case
    mappings) and the regular-expression engine.  [re_sub p r s] is
    [re.sub(p, r, s)] for a pattern and a template that compile;
    [re_label s] is [re.search(r':\s*(.+)', s)], giving [group(1)] when the
    search succeeds; [str_of_float x] is [str(x)] for a float. *)
Class PyLib := {
  isspace : N → bool;
  decimal : N → option N;
  is_Mn : N → bool;
  nfd : str → str;
  upper : str → str;
  title : str → str;
  re_sub : str → str → str → str;
  re_label : str → option str;
  str_of_float : pyfloat → str;
}.

Section Text.
Context `{PyLib}.

(** [s.lstrip()], [s.rstrip()], [s.strip()] *)
Fixpoint lstrip (s : str) : str :=
  match s with
  | [] => []
  | c :: s' => if isspace c then lstrip s' else s
  end.

Definition rstrip (s : str) : str := reverse (lstrip (reverse s)).

Definition strip (s : str) : str := rstrip (lstrip s).

(** [s.split()]: the maximal runs of characters that are not whitespace.
    [w] is the word being read. *)
Fixpoint split_from (w : str) (s : str) : list str :=
  match s with
  | [] => match w with [] => [] | _ => [w] end
  | c :: s' =>
      if isspace c then
        match w with
        | [] => split_from [] s'
        | _ => w :: split_from [] s'
        end
      else split_from (w ++ [c]) s'
  end.

Definition split (s : str) : list str := split_from [] s.

(** [sep.join(ws)] *)
Fixpoint join (sep : str) (ws : list str) : str :=
  match ws with
  | [] => []
  | [w] => w
  | w :: ws' => w ++ sep ++ join sep ws'
  end.

(** [needle in s] *)
Fixpoint contains (needle s : str) : bool :=
  match s with
  | [] => bool_decide (needle = [])
  | _ :: s' => bool_decide (needle `prefix_of` s) || contains needle s'
  end.
End Text.

(** ** SchoolNameNormalizer *)

Record SchoolNameNormalizer := {
  mappings : gmap str str;
  replacements : list (str * str);
  found_schools : gset str;
  normalization_stats : gmap str (list str);
}.

Definition ECOLE_INCONNUE : str := u "ECOLE_INCONNUE".

(** The state built by [__init__]. *)
Definition default_replacements : list (str * str) :=
  [ (u "\bSTE\b", u "SAINTE");
    (u "\bST\b", u "SAINT");
    (u "MATERNELLEELEMENTAIRE", u "MATERNELLE ELEMENTAIRE");
    (u "ELEMENTAIREMATERNELLE", u "ELEMENTAIRE MATERNELLE");
    (u "\bMAT\b", u "MATERNELLE");
    (u "\bELEM\b", u "ELEMENTAIRE");
    (u "\bELE\b", u "ELEMENTAIRE");
    (u "\bECOLE\b", []);
    (u "\bCANTINE SCOLAIRE\b", []);
    (u "\bRESTAURATION\b", []);
    (u "\+", u " ");
    (u "\bET\b", []);
    (u "\s+", u " ") ].

Definition init : SchoolNameNormalizer :=
  {| mappings := ∅;
     replacements := default_replacements;
     found_schools := ∅;
     normalization_stats := ∅ |}.

Definition add_found (original : str) (self : SchoolNameNormalizer) :=
  {| mappings := mappings self;
     replacements := replacements self;
     found_schools := {[ original ]} ∪ found_schools self;
     normalization_stats := normalization_stats self |}.

Definition set_stats (stats : gmap str (list str)) (self : SchoolNameNormalizer) :=
  {| mappings := mappings self;
     replacements := replacements self;
     found_schools := found_schools self;
     normalization_stats := stats |}.

(** [load_mapping_file] once the JSON document is parsed: each of the two
    fields replaces the active value when present. *)
Definition load_mapping (new_replacements : option (list (str * str)))
    (new_mappings : option (gmap str str)) (self : SchoolNameNormalizer) :=
  {| mappings := default (mappings self) new_mappings;
     replacements := default (replacements self) new_replacements;
     found_schools := found_schools self;
     normalization_stats := normalization_stats self |}.

Definition _record_normalization (original normalized : str)
    (self : SchoolNameNormalizer) : SchoolNameNormalizer :=
  if decide (original ≠ normalized) then
    let stats :=
      match normalization_stats self !! normalized with
      | None => <[normalized := []]> (normalization_stats self)
      | Some _ => normalization_stats self
      end in
    let variations := default [] (stats !! normalized) in
    if decide (original ∈ variations) then set_stats stats self
    else set_stats (<[normalized := variations ++ [original]]> stats) self
  else self.

Section Normalizer.
Context `{PyLib}.

Definition _remove_accents (text : str) : str :=
  filter (λ c, is_Mn c = false) (nfd text).

(** The loop [for pattern, replacement in self.replacements]. *)
Fixpoint apply_replacements (rules : list (str * str)) (normalized : str) : str :=
  match rules with
  | [] => normalized
  | (pattern, replacement) :: rules' =>
      apply_replacements rules' (re_sub pattern replacement normalized)
  end.

Definition normalize (school_name : str) (self : SchoolNameNormalizer)
    : str * SchoolNameNormalizer :=
  match school_name with
  | [] => (ECOLE_INCONNUE, self)
  | _ =>
      let original := school_name in
      let normalized := upper (strip school_name) in
      let normalized := _remove_accents normalized in
      match mappings self !! normalized with
      | Some result =>
          (result, _record_normalization original result (add_found original self))
      | None =>
          let normalized := apply_replacements (replacements self) normalized in
          let normalized := join (u " ") (split normalized) in
          let normalized := strip normalized in
          let normalized :=
            match normalized with [] => ECOLE_INCONNUE | _ => normalized end in
          (normalized,
           _record_normalization original normalized (add_found original self))
      end
  end.

(** The [schools] list written by [export_found_schools], with
    [total_schools]. Strings compare by code point. *)
Fixpoint str_leb (a b : str) : bool :=
  match a, b with
  | [], _ => true
  | _ :: _, [] => false
  | x :: a', y :: b' => (x <? y) || ((x =? y) && str_leb a' b')
  end.

Definition str_le (a b : str) : Prop := str_leb a b = true.

Global Instance str_le_dec a b : Decision (str_le a b).
Proof. unfold str_le. apply _. Defined.

Definition sorted (l : list str) : list str := merge_sort str_le l.

Definition export_found_schools (self : SchoolNameNormalizer) : nat * list str :=
  (size (found_schools self), sorted (elements (found_schools self))).
End Normalizer.

(** ** Sheets *)

(** A cell value as [iter_rows(values_only=True)] yields it.  [COther] stands
    for the remaining kinds (dates, times); they are truthy and are neither
    [str] nor numbers, and the text is what [str()] prints for them. *)
Inductive cell :=
  | CNone
  | CStr (s : str)
  | CBool (b : bool)
  | CInt (z : Z)
  | CFloat (f : pyfloat)
  | COther (text : str).

Inductive exn :=
  | IndexError
  | ValueError
  | TypeError
  | OverflowError
  | ImportError
  | OtherError (message : str).

(** [x > 0] on a float *)
Definition float_pos (f : pyfloat) : bool :=
  match f with
  | Finite m _ => (0 <? m)%Z
  | PosInf => true
  | NegInf | NaN => false
  end.

(** [int(x)] on a float: truncation towards zero; the infinities raise
    [OverflowError] and NaN raises [ValueError]. *)
Definition int_of_float (f : pyfloat) : exn + Z :=
  match f with
  | Finite m e =>
      inr (if (0 <=? e)%Z then (m * 2 ^ e)%Z else (m ÷ 2 ^ (- e))%Z)
  | PosInf | NegInf => inl OverflowError
  | NaN => inl ValueError
  end.

(** Truth value of a cell. *)
Definition truthy (c : cell) : bool :=
  match c with
  | CNone => false
  | CStr s => bool_decide (s ≠ [])
  | CBool b => b
  | CInt z => bool_decide (z ≠ 0%Z)
  | CFloat (Finite m _) => bool_decide (m ≠ 0%Z)
  | CFloat _ => true
  | COther _ => true
  end.

(** [isinstance(c, (int, float))]; [bool] is a subclass of [int]. *)
Definition is_number (c : cell) : bool :=
  match c with
  | CBool _ | CInt _ | CFloat _ => true
  | _ => false
  end.

(** [c > 0] for a number *)
Definition number_pos (c : cell) : bool :=
  match c with
  | CBool b => b
  | CInt z => (0 <? z)%Z
  | CFloat f => float_pos f
  | _ => false
  end.

(** [int(c)] for a number *)
Definition int_of (c : cell) : exn + Z :=
  match c with
  | CBool b => inr (if b then 1 else 0)%Z
  | CInt z => inr z
  | CFloat f => int_of_float f
  | _ => inl TypeError
  end.

(** A row built by [_extract_table_data]. *)
Record TableRow := {
  row_type_repas : option str;
  row_categorie : str;
  row_jour_semaine : str;
  row_quantite : Z;
}.

(** A record as [save_to_database] receives it; a key that the dictionary
    does not hold reads as [None]. *)
Record OrderRecord := {
  ecole : str;
  ecole_normalized : str;
  agent : option str;
  periode : option str;
  type_repas : option str;
  categorie : str;
  jour_semaine : str;
  quantite : Z;
  source_fichier : str;
}.

(** [d[k] = v] on a dictionary kept in insertion order: a key already present
    keeps its place. *)
Fixpoint dict_set {V} (k : nat) (v : V) (d : list (nat * V)) : list (nat * V) :=
  match d with
  | [] => [(k, v)]
  | (k', v') :: d' =>
      if decide (k = k') then (k, v) :: d' else (k', v') :: dict_set k v d'
  end.

Definition JOURS_UPPER : list str :=
  [u "LUNDI"; u "MARDI"; u "MERCREDI"; u "JEUDI"; u "VENDREDI"].

Definition TYPES_UPPER : list str :=
  [u "ENFANTS"; u "ADULTES"; u "MATERNELLE"].

Definition categories : list str :=
  [u "Standard"; u "Sans porc"; u "Végétarien"; u "Halal"].

Section Table.
Context `{PyLib}.

(** [str(c)] *)
Definition str_of_Z (z : Z) : str :=
  u (NilZero.string_of_int (Z.to_int z)).

Definition str_of (c : cell) : str :=
  match c with
  | CNone => u "None"
  | CStr s => s
  | CBool b => if b then u "True" else u "False"
  | CInt z => str_of_Z z
  | CFloat f => str_of_float f
  | COther text => text
  end.

(** Header state: [header_row] and [jours_colonnes]. *)
Definition header_state : Type := option nat * list (nat * str).

(** One cell of the header scan. *)
Definition scan_cell (row_idx col_idx : nat) (c : cell) (st : header_state)
    : header_state :=
  match c with
  | CStr s =>
      if truthy c then
        let cell_upper := strip (upper s) in
        if bool_decide (cell_upper ∈ JOURS_UPPER) then
          (match st.1 with None => Some row_idx | Some h => Some h end,
           dict_set col_idx cell_upper st.2)
        else st
      else st
  | _ => st
  end.

(** [for col_idx, cell in enumerate(row)] *)
Fixpoint scan_row (row_idx col_idx : nat) (row : list cell) (st : header_state)
    : header_state :=
  match row with
  | [] => st
  | c :: row' => scan_row row_idx (S col_idx) row' (scan_cell row_idx col_idx c st)
  end.

(** [for row_idx, row in enumerate(rows, start=1)], with the [break] that
    follows the scan of a row. *)
Fixpoint scan_header (row_idx : nat) (rows : list (list cell)) (st : header_state)
    : header_state :=
  match rows with
  | [] => st
  | row :: rows' =>
      let st' := scan_row row_idx 0 row st in
      match st'.1 with
      | Some header_row =>
          if decide (header_row < row_idx)%nat then st'
          else scan_header (S row_idx) rows' st'
      | None => scan_header (S row_idx) rows' st'
      end
  end.

(** The body of the [try] for one weekday column: the row to append, if
    any, or the exception raised. *)
Definition read_quantity (current_type : option str) (categorie : str)
    (row : list cell) (col_idx : nat) (jour : str) : exn + option TableRow :=
  match row !! col_idx with
  | None => inl IndexError
  | Some quantite =>
      if is_number quantite && number_pos quantite then
        match int_of quantite with
        | inl e => inl e
        | inr n =>
            inr (Some {| row_type_repas := current_type;
                         row_categorie := categorie;
                         row_jour_semaine := title jour;
                         row_quantite := n |})
        end
      else inr None
  end.

(** [except (IndexError, ValueError, TypeError): continue] *)
Definition caught (e : exn) : bool :=
  match e with
  | IndexError | ValueError | TypeError => true
  | _ => false
  end.

(** [for col_idx, jour in jours_colonnes.items()] over one category row. *)
Fixpoint read_columns (current_type : option str) (categorie : str)
    (row : list cell) (cols : list (nat * str)) (data : list TableRow)
    : exn + list TableRow :=
  match cols with
  | [] => inr data
  | (col_idx, jour) :: cols' =>
      match read_quantity current_type categorie row col_idx jour with
      | inr (Some r) => read_columns current_type categorie row cols' (data ++ [r])
      | inr None => read_columns current_type categorie row cols' data
      | inl e =>
          if caught e then read_columns current_type categorie row cols' data
          else inl e
      end
  end.

(** [for row in sheet.iter_rows(min_row=header_row + 1)] *)
Fixpoint read_body (cols : list (nat * str)) (rows : list (list cell))
    (current_type : option str) (data : list TableRow) : exn + list TableRow :=
  match rows with
  | [] => inr data
  | row :: rows' =>
      match row with
      | [] => inl IndexError
      | c0 :: _ =>
          let first_cell := strip (if truthy c0 then str_of c0 else []) in
          if bool_decide (upper first_cell ∈ TYPES_UPPER) then
            read_body cols rows' (Some (title first_cell)) data
          else if bool_decide (first_cell ∈ categories) then
            match read_columns current_type first_cell row cols data with
            | inl e => inl e
            | inr data' => read_body cols rows' current_type data'
            end
          else read_body cols rows' current_type data
      end
  end.

Definition _extract_table_data (sheet : list (list cell)) : exn + list TableRow :=
  let '(header_row, jours_colonnes) := scan_header 1 sheet (None, []) in
  match jours_colonnes with
  | [] => inr []
  | _ => read_body jours_colonnes (drop (default 0%nat header_row) sheet) None []
  end.
End Table.

(** ** Pages of text *)

(** The two shapes of the quantity patterns of [extract_from_pdf]:
    [After_spaces kw] is [kw\s+(\d+)\s+(\d+)\s+(\d+)\s+(\d+)] and
    [After_any kw] is [kw.*?(\d+)\s+(\d+)\s+(\d+)\s+(\d+)]. *)
Inductive quantity_pattern :=
  | After_spaces (keyword : str)
  | After_any (keyword : str).

Definition patterns : list (str * quantity_pattern) :=
  [ (u "Enfants", After_any (u "Enfants"));
    (u "Standard", After_spaces (u "Standard"));
    (u "Sans porc", After_spaces (u "Sans porc"));
    (u "Végétarien", After_spaces (u "Végétarien"));
    (u "Halal", After_spaces (u "Halal")) ].

Definition jours : list str :=
  [u "Lundi"; u "Mardi"; u "Mercredi"; u "Jeudi"; u "Vendredi"].

Section Pages.
Context `{PyLib}.

Definition is_digit (c : N) : bool := bool_decide (is_Some (decimal c)).

(** [(\d+)] at the head of [s]: the digits taken (all of them, a shorter
    run is followed by a digit and nothing of the pattern goes on there)
    and the rest. *)
Fixpoint digits (s : str) : str * str :=
  match s with
  | [] => ([], [])
  | c :: s' =>
      if is_digit c then let '(d, r) := digits s' in (c :: d, r) else ([], s)
  end.

Definition group (s : str) : option (str * str) :=
  match digits s with
  | ([], _) => None
  | (d, r) => Some (d, r)
  end.

(** [\s+] at the head of [s]: the rest. *)
Definition spaces (s : str) : option str :=
  match s with
  | c :: s' => if isspace c then Some (lstrip s') else None
  | [] => None
  end.

(** [(\d+)\s+(\d+)\s+(\d+)\s+(\d+)] at the head of [s]: the four groups. *)
Definition four_groups (s : str) : option (list str) :=
  '(g1, s) ← group s; s ← spaces s;
  '(g2, s) ← group s; s ← spaces s;
  '(g3, s) ← group s; s ← spaces s;
  '(g4, _) ← group s;
  Some [g1; g2; g3; g4].

(** [.*?] followed by the four groups: the shortest run of characters
    other than the line feed after which the groups are found. *)
Fixpoint skip_any (s : str) : option (list str) :=
  match four_groups s with
  | Some g => Some g
  | None =>
      match s with
      | [] => None
      | c :: s' => if c =? 10 then None else skip_any s'
      end
  end.

(** [re.match(pattern, s)], groups only *)
Definition match_at (p : quantity_pattern) (s : str) : option (list str) :=
  match p with
  | After_spaces kw =>
      if bool_decide (kw `prefix_of` s) then
        spaces (drop (length kw) s) ≫= four_groups
      else None
  | After_any kw =>
      if bool_decide (kw `prefix_of` s) then skip_any (drop (length kw) s)
      else None
  end.

(** [re.search(pattern, text)], then [match.groups()] *)
Fixpoint re_search (p : quantity_pattern) (text : str) : option (list str) :=
  match match_at p text with
  | Some g => Some g
  | None =>
      match text with
      | [] => None
      | _ :: text' => re_search p text'
      end
  end.

(** [int(q)] on a run of decimal digits *)
Definition int_of_digits (q : str) : Z :=
  foldl (λ acc c, acc * 10 + Z.of_N (default 0%N (decimal c)))%Z 0%Z q.

(** [enumerate(l)] *)
Definition enumerate {A} (l : list A) : list (nat * A) :=
  zip (seq 0 (length l)) l.

(** The records appended for one entry of [patterns]. *)
Definition match_records (school_name normalized_school : str)
    (agent_name : option str) (source : str) (text : str)
    (entry : str * quantity_pattern) : list OrderRecord :=
  let '(categorie, pattern) := entry in
  match re_search pattern text with
  | None => []
  | Some groups =>
      let quantites := int_of_digits <$> groups in
      omap (λ '(i, jour),
              match quantites !! i with
              | Some q =>
                  if (0 <? q)%Z then
                    Some {| ecole := school_name;
                            ecole_normalized := normalized_school;
                            agent := agent_name;
                            periode := None;
                            type_repas := None;
                            categorie := categorie;
                            jour_semaine := jour;
                            quantite := q;
                            source_fichier := source |}
                  else None
              | None => None
              end)
           (enumerate (take (length quantites) jours))
  end.

(** [for categorie, pattern in patterns.items()] *)
Definition page_records (school_name normalized_school : str)
    (agent_name : option str) (source : str) (text : str) : list OrderRecord :=
  flat_map (match_records school_name normalized_school agent_name source text)
    patterns.

(** [s.split('\n')] *)
Fixpoint split_lines_from (line : str) (s : str) : list str :=
  match s with
  | [] => [line]
  | c :: s' =>
      if c =? 10 then line :: split_lines_from [] s'
      else split_lines_from (line ++ [c]) s'
  end.

Definition split_lines (s : str) : list str := split_lines_from [] s.

(** The header lines: school and agent, the last match of each standing. *)
Definition scan_line (found : option str * option str) (line : str)
    : option str * option str :=
  let found :=
    if contains (u "RESTAURANT") (upper line) || contains (u "ECOLE") (upper line)
    then match re_label line with
         | Some g => (Some (strip g), found.2)
         | None => found
         end
    else found in
  if contains (u "AGENT") (upper line)
  then match re_label line with
       | Some g => (found.1, Some (strip g))
       | None => found
       end
  else found.

(** [if not school_name: school_name = Path(file_path).stem] *)
Definition name_or_stem (school_name : option str) (stem : str) : str :=
  match school_name with
  | Some (c :: s) => c :: s
  | _ => stem
  end.

(** One page of [extract_from_pdf]; a page without text is skipped. *)
Definition extract_page (stem source : str) (page : option str)
    (self : SchoolNameNormalizer) : list OrderRecord * SchoolNameNormalizer :=
  match page with
  | None | Some [] => ([], self)
  | Some text =>
      let '(school_name, agent_name) :=
        foldl scan_line (None, None) (split_lines text) in
      let school_name := name_or_stem school_name stem in
      let '(normalized_school, self) := normalize school_name self in
      (page_records school_name normalized_school agent_name source text, self)
  end.

Fixpoint extract_from_pdf (stem source : str) (pages : list (option str))
    (self : SchoolNameNormalizer) : list OrderRecord * SchoolNameNormalizer :=
  match pages with
  | [] => ([], self)
  | page :: pages' =>
      let '(rs, self) := extract_page stem source page self in
      let '(rs', self) := extract_from_pdf stem source pages' self in
      (rs ++ rs', self)
  end.
End Pages.

(** ** Workbooks *)

Section Workbook.
Context `{PyLib}.

(** One cell of the first twenty rows: school, agent and period. *)
Definition scan_meta_cell (found : option str * option str * option str)
    (c : cell) : option str * option str * option str :=
  match c with
  | CStr s =>
      if truthy c then
        let '(school_agent, period) := found in
        let school_agent := scan_line school_agent s in
        let period :=
          if contains (u "PERIODE") (upper s) || contains (u "SEMAINE") (upper s)
          then Some s else period in
        (school_agent, period)
      else found
  | _ => found
  end.

Definition scan_meta (sheet : list (list cell)) : option str * option str * option str :=
  foldl (λ found row, foldl scan_meta_cell found row) (None, None, None)
    (take 20 sheet).

(** [row_data.update({...})] *)
Definition complete (school_name normalized_school : str)
    (agent_name period : option str) (source : str) (r : TableRow) : OrderRecord :=
  {| ecole := school_name;
     ecole_normalized := normalized_school;
     agent := agent_name;
     periode := period;
     type_repas := row_type_repas r;
     categorie := row_categorie r;
     jour_semaine := row_jour_semaine r;
     quantite := row_quantite r;
     source_fichier := source |}.

(** One sheet of [extract_from_excel]. *)
Definition extract_sheet (stem source : str) (sheet : list (list cell))
    (self : SchoolNameNormalizer) : (exn + list OrderRecord) * SchoolNameNormalizer :=
  let '(school_name, agent_name, period) := scan_meta sheet in
  let school_name := name_or_stem school_name stem in
  let '(normalized_school, self) := normalize school_name self in
  match _extract_table_data sheet with
  | inl e => (inl e, self)
  | inr data_rows =>
      (inr (complete school_name normalized_school agent_name period source
              <$> data_rows), self)
  end.

Fixpoint extract_from_excel (stem source : str) (sheets : list (list (list cell)))
    (self : SchoolNameNormalizer) : (exn + list OrderRecord) * SchoolNameNormalizer :=
  match sheets with
  | [] => (inr [], self)
  | sheet :: sheets' =>
      match extract_sheet stem source sheet self with
      | (inl e, self) => (inl e, self)
      | (inr rs, self) =>
          match extract_from_excel stem source sheets' self with
          | (inl e, self) => (inl e, self)
          | (inr rs', self) => (inr (rs ++ rs'), self)
          end
      end
  end.
End Workbook.

(** ** The batch loop *)

(** What opening a file gives: the sheets of a workbook, the text of the
    pages of a PDF document, or the exception raised by the reader. *)
Inductive document :=
  | Sheets (sheets : list (list (list cell)))
  | Pages (pages : list (option str))
  | Unreadable (e : exn).

(** An input file: [file_path.name], [file_path.stem],
    [file_path.suffix.lower()] and what the file holds. *)
Record File := {
  name : str;
  stem : str;
  suffix_lower : str;
  content : document;
}.

Record Batch := {
  processed : nat;
  errors : nat;
  total_records : nat;
  normalizer : SchoolNameNormalizer;
  database : list OrderRecord;
}.

Section Batch.
Context `{PyLib}.

(** The storage sink: [save_to_database data] fails with an exception or
    appends the records. *)
Variable save_fault : list OrderRecord → option exn.

Definition with_normalizer (self : SchoolNameNormalizer) (b : Batch) : Batch :=
  {| processed := processed b; errors := errors b;
     total_records := total_records b; normalizer := self;
     database := database b |}.

(** [except Exception as e: ... errors += 1] *)
Definition on_error (b : Batch) : Batch :=
  {| processed := processed b; errors := S (errors b);
     total_records := total_records b; normalizer := normalizer b;
     database := database b |}.

(** [if data: save, count ... else: warning].  [database] keeps the records
    of the files stored in full; the rows that a failing [save_to_database]
    had inserted before it failed are not followed. *)
Definition on_data (data : list OrderRecord) (b : Batch) : Batch :=
  match data with
  | [] => b
  | _ =>
      match save_fault data with
      | Some e => on_error b
      | None =>
          {| processed := S (processed b); errors := errors b;
             total_records := (total_records b + length data)%nat;
             normalizer := normalizer b;
             database := database b ++ data |}
      end
  end.

Definition extract (f : File) (self : SchoolNameNormalizer)
    : option ((exn + list OrderRecord) * SchoolNameNormalizer) :=
  if bool_decide (suffix_lower f ∈ [u ".xlsx"; u ".xls"]) then
    Some match content f with
         | Sheets sheets => extract_from_excel (stem f) (name f) sheets self
         | Pages _ => (inl (OtherError (u "not a workbook")), self)
         | Unreadable e => (inl e, self)
         end
  else if bool_decide (suffix_lower f = u ".pdf") then
    Some match content f with
         | Pages pages =>
             let '(rs, self) := extract_from_pdf (stem f) (name f) pages self in
             (inr rs, self)
         | Sheets _ => (inl (OtherError (u "not a PDF document")), self)
         | Unreadable e => (inl e, self)
         end
  else None.

(** The body of [for i, file_path in enumerate(files, 1)]. *)
Definition process_file (b : Batch) (f : File) : Batch :=
  match extract f (normalizer b) with
  | None => b
  | Some (inl e, self) => on_error (with_normalizer self b)
  | Some (inr data, self) => on_data data (with_normalizer self b)
  end.

Definition start (self : SchoolNameNormalizer) : Batch :=
  {| processed := 0; errors := 0; total_records := 0;
     normalizer := self; database := [] |}.

(** The counters reported once the loop is over:
    [Fichiers traités: processed/total_files], [Erreurs: errors],
    [Total enregistrements: total_records]. *)
Record Summary := {
  files_processed : nat;
  files_total : nat;
  files_errored : nat;
  records_total : nat;
}.

(** [_process_files_thread] from the list of the files found: with no file
    the thread returns before the loop and reports nothing. *)
Definition run (files : list File) (self : SchoolNameNormalizer)
    : option Summary * Batch :=
  match files with
  | [] => (None, start self)
  | _ =>
      let b := foldl process_file (start self) files in
      (Some {| files_processed := processed b;
               files_total := length files;
               files_errored := errors b;
               records_total := total_records b |}, b)
  end.
End Batch.

(** ** An instance for ASCII text

    On ASCII text, with patterns and templates made of literal characters
    only, the functions below are CPython's.  The examples, witnesses and
    counterexamples of this file are evaluated with them. *)

Definition ascii_isspace (c : N) : bool :=
  bool_decide (c ∈ [9; 10; 11; 12; 13; 28; 29; 30; 31; 32; 133; 160; 5760;
                    8232; 8233; 8239; 8287; 12288])
  || ((8192 <=? c) && (c <=? 8202)).

Definition ascii_decimal (c : N) : option N :=
  if (48 <=? c) && (c <=? 57) then Some (c - 48) else None.

Definition ascii_is_Mn (c : N) : bool := (768 <=? c) && (c <=? 879).

Definition is_lower (c : N) : bool := (97 <=? c) && (c <=? 122).
Definition is_upper (c : N) : bool := (65 <=? c) && (c <=? 90).
Definition to_upper (c : N) : N := if is_lower c then c - 32 else c.
Definition to_lower (c : N) : N := if is_upper c then c + 32 else c.

Definition ascii_upper (s : str) : str := to_upper <$> s.

Fixpoint title_from (after_letter : bool) (s : str) : str :=
  match s with
  | [] => []
  | c :: s' =>
      if is_lower c || is_upper c then
        (if after_letter then to_lower c else to_upper c) :: title_from true s'
      else c :: title_from false s'
  end.

Definition ascii_title (s : str) : str := title_from false s.

(** [re.sub] for a pattern of literal characters: the occurrences found from
    left to right, without overlap. [skip] counts the characters of the
    occurrence just replaced that are still to pass. *)
Fixpoint replace_from (skip : nat) (pat rep s : str) : str :=
  match s with
  | [] => []
  | c :: s' =>
      match skip with
      | S k => replace_from k pat rep s'
      | O =>
          if bool_decide (pat `prefix_of` s)
          then rep ++ replace_from (length pat - 1) pat rep s'
          else c :: replace_from 0 pat rep s'
      end
  end.

Definition literal_sub (pat rep s : str) : str :=
  match pat with
  | [] => rep ++ flat_map (λ c, c :: rep) s
  | _ => replace_from 0 pat rep s
  end.

(** [re.search(r':\s*(.+)', s)]: after the first colon that is followed by a
    character other than a line feed, the whitespace is passed and the group
    runs to the end of the line; when only whitespace follows the colon the
    group is its last character that is not a line feed. *)
Fixpoint line_of (s : str) : str :=
  match s with
  | [] => []
  | c :: s' => if c =? 10 then [] else c :: line_of s'
  end.

Definition last_on_line (ws : str) : option str :=
  (λ c, [c]) <$> last (filter (λ c, c ≠ 10) ws).

Fixpoint after_spaces (s : str) : str :=
  match s with
  | [] => []
  | c :: s' => if ascii_isspace c then after_spaces s' else s
  end.

Definition label_at (rest : str) : option str :=
  match after_spaces rest with
  | [] => last_on_line rest
  | r => Some (line_of r)
  end.

Fixpoint ascii_label (s : str) : option str :=
  match s with
  | [] => None
  | c :: s' =>
      if c =? 58 then
        match label_at s' with
        | Some g => Some g
        | None => ascii_label s'
        end
      else ascii_label s'
  end.

(** [str(x)] for a float whose decimal expansion is short: the expansion
    itself. *)
Definition ascii_str_of_float (f : pyfloat) : str :=
  match f with
  | PosInf => u "inf"
  | NegInf => u "-inf"
  | NaN => u "nan"
  | Finite m e =>
      let sign := if (m <? 0)%Z then u "-" else [] in
      let a := Z.abs m in
      if (0 <=? e)%Z then
        sign ++ u (NilZero.string_of_int (Z.to_int (a * 2 ^ e))) ++ u ".0"
      else
        let k := (- e)%Z in
        let n := (a * 5 ^ k)%Z in
        let frac := u (NilZero.string_of_uint (N.to_uint (Z.to_N (n mod 10 ^ k)))) in
        sign ++ u (NilZero.string_of_int (Z.to_int (n / 10 ^ k))) ++ u "."
          ++ replicate (Z.to_nat k - length frac) 48 ++ frac
  end.

Definition ascii_lib : PyLib :=
  {| isspace := ascii_isspace;
     decimal := ascii_decimal;
     is_Mn := ascii_is_Mn;
     nfd := id;
     upper := ascii_upper;
     title := ascii_title;
     re_sub := literal_sub;
     re_label := ascii_label;
     str_of_float := ascii_str_of_float |}.

(** ** The words of the specification *)


Section Specification.
Context `{PyLib}.

(** The lookup key of a raw name: trimmed, uppercased, without
    diacritics. *)
Definition key (raw : str) : str := _remove_accents (upper (strip raw)).




(** A run: the names passed to [normalize], one after the other. *)
Definition normalize_all (names : list str) (self : SchoolNameNormalizer)
    : SchoolNameNormalizer :=
  foldl (λ self n, (normalize n self).2) self names.
(** A cell that holds the name of a weekday. *)
Definition is_weekday_cell (c : cell) : bool :=
  match c with
  | CStr s => truthy c && bool_decide (strip (upper s) ∈ JOURS_UPPER)
  | _ => false
  end.

End Specification.

(** [(original → canonical)] is in the consolidation index. *)
Definition recorded (original canonical : str) (self : SchoolNameNormalizer) : Prop :=
  original ∈ default [] (normalization_stats self !! canonical).



(** How many times [n] stands in [l]. *)
Definition occurrences (n : str) (l : list str) : nat :=
  length (filter (λ x, x = n) l).

(** ** Outcomes of files and configurations *)

(** What the loop makes of one file. *)
Inductive outcome :=
  | Failed
  | Stored (n : nat)
  | Nothing.

Definition is_failed (o : outcome) : bool :=
  match o with Failed => true | _ => false end.

Definition is_stored (o : outcome) : bool :=
  match o with Stored _ => true | _ => false end.

Section Outcome.
Context `{PyLib}.
Variable save_fault : list OrderRecord → option exn.

(** The outcome of a file under the configuration (mapping table and rule
    chain) of [self]: an exception in the extraction or in the storage, some
    records stored, or nothing to store. *)
Definition outcome_of (self : SchoolNameNormalizer) (f : File) : outcome :=
  match extract f self with
  | None => Nothing
  | Some (inl _, _) => Failed
  | Some (inr [], _) => Nothing
  | Some (inr data, _) =>
      match save_fault data with
      | Some _ => Failed
      | None => Stored (length data)
      end
  end.
End Outcome.

(** Two states with the same mapping table and rule chain. *)
Definition same_config (a b : SchoolNameNormalizer) : Prop :=
  mappings a = mappings b ∧ replacements a = replacements b.

(** The record of a page for a weekday and a quantity, and the keys of
    [patterns]. *)
Definition page_record (school_name normalized_school : str)
    (agent_name : option str) (source categorie : str) (jq : str * Z) : OrderRecord :=
  {| ecole := school_name; ecole_normalized := normalized_school;
     agent := agent_name; periode := None; type_repas := None;
     categorie := categorie; jour_semaine := jq.1; quantite := jq.2;
     source_fichier := source |}.

Definition pattern_keys : list str :=
  [u "Enfants"; u "Standard"; u "Sans porc"; u "Végétarien"; u "Halal"].

(** ** Inputs of the examples *)



Definition without_rules : SchoolNameNormalizer :=
  load_mapping (Some []) None init.


Definition with_mapping : SchoolNameNormalizer :=
  load_mapping None (Some {[ u "STE AURELIE MAT" := u "SAINTE AURELIE" ]}) init.

(** Sheets: a quantity of one half; an infinite quantity; the name of a
    weekday in the row under the header row; no weekday at all; a header, a
    type row and two category rows. *)
Definition half_portion_sheet : list (list cell) :=
  [ [CNone; CStr (u "Lundi")];
    [CStr (u "Standard"); CFloat (Finite 1 (-1))] ].

Definition infinite_cell_sheet : list (list cell) :=
  [ [CNone; CStr (u "Lundi"); CStr (u "Mardi")];
    [CStr (u "Standard"); CFloat PosInf; CInt 3] ].

Definition weekday_below_header_sheet : list (list cell) :=
  [ [CNone; CStr (u "Lundi"); CNone];
    [CStr (u "Standard"); CInt 5; CStr (u "Mardi")];
    [CStr (u "Halal"); CInt 1; CInt 7] ].

Definition sheet_without_weekday : list (list cell) :=
  [ [CStr (u "Menu"); CInt 3];
    [CStr (u "Standard"); CInt 5] ].

Definition plain_sheet : list (list cell) :=
  [ [CNone; CStr (u "Lundi"); CStr (u "Mardi")];
    [CStr (u "Enfants")];
    [CStr (u "Standard"); CInt 10; CInt 0];
    [CStr (u "Halal"); CStr (u "x")] ].

(** Files: a PDF document of one page, a file that its reader rejects, a
    storage that never fails, and two batches of five files. *)
Definition pdf_file (n text : str) : File :=
  {| name := n ++ u ".pdf"; stem := n; suffix_lower := u ".pdf";
     content := Pages [Some text] |}.

Definition broken_file (n : str) : File :=
  {| name := n ++ u ".pdf"; stem := n; suffix_lower := u ".pdf";
     content := Unreadable (OtherError (u "No /Root object")) |}.

Definition no_fault (data : list OrderRecord) : option exn := None.

Definition one_empty_one_broken : list File :=
  [ pdf_file (u "a") (u "Menu de la semaine");
    pdf_file (u "b") (u "Standard 4 0 2 1");
    broken_file (u "c");
    pdf_file (u "d") (u "Halal 1 1 1 1");
    pdf_file (u "e") (u "Standard 2 2 0 0") ].

Definition one_broken : list File :=
  [ pdf_file (u "a") (u "Sans porc 3 0 0 1");
    pdf_file (u "b") (u "Standard 4 0 2 1");
    broken_file (u "c");
    pdf_file (u "d") (u "Halal 1 1 1 1");
    pdf_file (u "e") (u "Standard 2 2 0 0") ].


(** ** The consolidation index as the run keeps it *)

Section Index.
Context `{PyLib}.

(** What holds of every entry of [normalization_stats]: the list of
    originals is not empty and has no repeat, it does not hold the canonical
    name itself, its members have all been seen, and each of them normalizes
    to the canonical name under the configuration of [self]. *)
Definition index_ok (self : SchoolNameNormalizer) : Prop :=
  ∀ canonical variations,
    normalization_stats self !! canonical = Some variations →
    variations ≠ []
    ∧ NoDup variations
    ∧ (canonical ∉ variations)
    ∧ (∀ original, original ∈ variations →
         original ∈ found_schools self
         ∧ (normalize original self).1 = canonical).
End Index.

Section Keywords.
Context `{PyLib}.

(** A line (or a cell) that the header scan reads for the name of the
    school. *)
Definition mentions_school (line : str) : bool :=
  contains (u "RESTAURANT") (upper line) || contains (u "ECOLE") (upper line).

(** The tags of a row of a sheet: a weekday in title case, and no type or
    the title case of the text of a type row. *)
Definition tags_ok (r : TableRow) : Prop :=
  row_jour_semaine r ∈ title <$> JOURS_UPPER
  ∧ (row_type_repas r = None
     ∨ ∃ t, row_type_repas r = Some (title t) ∧ upper t ∈ TYPES_UPPER).

Definition type_ok (current_type : option str) : Prop :=
  current_type = None
  ∨ ∃ t, current_type = Some (title t) ∧ upper t ∈ TYPES_UPPER.

End Keywords.

(** ** Mapping files *)

(** A JSON document as [json.load] returns it; an object is given by its
    items, each key once.  A number keeps its text. *)
Local Unset Elimination Schemes.

Inductive json :=
  | JNull
  | JBool (b : bool)
  | JNumber (literal : str)
  | JString (s : str)
  | JArray (elements : list json)
  | JObject (items : list (str * json)).

Local Set Elimination Schemes.

Definition KeyError : exn := OtherError (u "KeyError").

(** [d.get(key)] on the items of a dictionary *)
Fixpoint assoc (key : str) (items : list (str * json)) : option json :=
  match items with
  | [] => None
  | (k, v) :: items' => if decide (k = key) then Some v else assoc key items'
  end.

Definition is_string (key : str) (v : json) : bool :=
  match v with
  | JString s => bool_decide (s = key)
  | _ => false
  end.

(** [key in data], for a string [key]: a key of an object, an element of an
    array, a part of a string; the other values are not containers. *)
Definition json_in (key : str) (data : json) : exn + bool :=
  match data with
  | JObject items => inr (bool_decide (is_Some (assoc key items)))
  | JArray elements => inr (existsb (is_string key) elements)
  | JString s => inr (contains key s)
  | _ => inl TypeError
  end.

(** [data[key]], for a string [key] *)
Definition json_get (key : str) (data : json) : exn + json :=
  match data with
  | JObject items =>
      match assoc key items with
      | Some v => inr v
      | None => inl KeyError
      end
  | _ => inl TypeError
  end.

(** [for r in data]: the elements of an array, the keys of an object, the
    characters of a string. *)
Definition json_iter (data : json) : exn + list json :=
  match data with
  | JArray elements => inr elements
  | JObject items => inr (JString <$> items.*1)
  | JString s => inr ((λ c, JString [c]) <$> s)
  | _ => inl TypeError
  end.

(** [(r['pattern'], r['replace'])] *)
Definition rule_of (r : json) : exn + (json * json) :=
  match json_get (u "pattern") r with
  | inl e => inl e
  | inr p =>
      match json_get (u "replace") r with
      | inl e => inl e
      | inr q => inr (p, q)
      end
  end.

(** [[(r['pattern'], r['replace']) for r in ...]] *)
Fixpoint rules_of (entries : list json) : exn + list (json * json) :=
  match entries with
  | [] => inr []
  | r :: entries' =>
      match rule_of r with
      | inl e => inl e
      | inr rule =>
          match rules_of entries' with
          | inl e => inl e
          | inr rules => inr (rule :: rules)
          end
      end
  end.

(** An entry of the rule chain that [rule_of] can read: an object with the
    keys [pattern] and [replace]. *)
Definition is_rule_entry (r : json) : bool :=
  match r with
  | JObject items =>
      bool_decide (is_Some (assoc (u "pattern") items))
      && bool_decide (is_Some (assoc (u "replace") items))
  | _ => false
  end.

(** The rule chain read from a document, when it has one. *)
Definition read_replacements (data : json) : exn + option (list (json * json)) :=
  match json_in (u "replacements") data with
  | inl e => inl e
  | inr false => inr None
  | inr true =>
      match json_get (u "replacements") data with
      | inl e => inl e
      | inr entries =>
          match json_iter entries with
          | inl e => inl e
          | inr entries =>
              match rules_of entries with
              | inl e => inl e
              | inr rules => inr (Some rules)
              end
          end
      end
  end.

(** The normalizer keeps rules of strings and a dictionary of strings: the
    values of a document that can be kept as such. *)
Definition as_str (v : json) : option str :=
  match v with
  | JString s => Some s
  | _ => None
  end.

Definition as_rule (rule : json * json) : option (str * str) :=
  p ← as_str rule.1; q ← as_str rule.2; Some (p, q).

Definition as_item (item : str * json) : option (str * str) :=
  v ← as_str item.2; Some (item.1, v).

Definition as_mappings (v : json) : option (gmap str str) :=
  match v with
  | JObject items => list_to_map <$> mapM as_item items
  | _ => None
  end.

(** [load_mapping_file] from what [open] and [json.load] give: the answer
    ([True] or [False]) and the state left.  The result is [None] for a
    document whose patterns, templates or mapped names are not all strings,
    or whose mappings are not an object: the program keeps such values as
    they are, and this model of the normalizer has no place for them. *)
Definition load_mapping_file (document : exn + json) (self : SchoolNameNormalizer)
    : option (bool * SchoolNameNormalizer) :=
  match document with
  | inl _ => Some (false, self)
  | inr data =>
      match read_replacements data with
      | inl _ => Some (false, self)
      | inr new_rules =>
          match mapM as_rule <$> new_rules with
          | Some None => None
          | rules =>
              let self := load_mapping (mjoin rules) None self in
              match json_in (u "mappings") data with
              | inl _ => Some (false, self)
              | inr false => Some (true, self)
              | inr true =>
                  match json_get (u "mappings") data with
                  | inl _ => Some (false, self)
                  | inr m =>
                      match as_mappings m with
                      | None => None
                      | Some m => Some (true, load_mapping None (Some m) self)
                      end
                  end
              end
          end
      end
  end.

(** ** The mapping editor *)

Section Editor.
Context `{PyLib}.

(** [MappingEditorWindow.add_mapping] from the text of the two entries: the
    session mappings with the new entry, or nothing when a field is empty
    (an error is shown and the session is left as it is). *)
Definition add_mapping (original_entry canonical_entry : str)
    (session_mappings : gmap str str) : option (gmap str str) :=
  let original := upper (strip original_entry) in
  let canonical := upper (strip canonical_entry) in
  match original, canonical with
  | [], _ | _, [] => None
  | _, _ =>
      let original_normalized := filter (λ c, is_Mn c = false) (nfd original) in
      Some (<[original_normalized := canonical]> session_mappings)
  end.
End Editor.

(** [json.dump] of a list of pairs and of a dictionary of strings *)
Definition json_of_rules (rules : list (str * str)) : json :=
  JArray ((λ rule, JArray [JString rule.1; JString rule.2]) <$> rules).

Definition json_of_mappings (m : gmap str str) : json :=
  JObject ((λ item, (item.1, JString item.2)) <$> map_to_list m).

(** [MappingEditorWindow.download_mapping]: the document written, or nothing
    when the session has no mapping. *)
Definition download_mapping (normalizer : SchoolNameNormalizer)
    (session_mappings : gmap str str) (date_generated : str) : option json :=
  if decide (session_mappings = ∅) then None
  else
    Some (JObject
            [ (u "version", JString (u "custom"));
              (u "description", JString (u "Mapping généré par l'éditeur CREDI"));
              (u "date_generated", JString date_generated);
              (u "replacements", json_of_rules (replacements normalizer));
              (u "mappings",
               json_of_mappings (session_mappings ∪ mappings normalizer)) ]).

(** ** The consolidation report *)

(** [str(n)] for a length *)
Definition str_of_nat (n : nat) : str := str_of_Z (Z.of_nat n).

(** The lines of the report for a canonical name and its originals. *)
Definition report_block (canonical : str) (variations : list str) : str :=
  u "📍 " ++ canonical ++ u ":" ++ [10]
  ++ foldl (λ report var, report ++ u "   ← " ++ var ++ [10]) [] variations
  ++ [10].

(** [sorted(self.normalization_stats.items())]: the keys differ, so the
    items are in the order of their keys. *)
Definition item_le (a b : str * list str) : Prop := str_le a.1 b.1.

Definition sorted_items (stats : gmap str (list str)) : list (str * list str) :=
  merge_sort item_le (map_to_list stats).

Definition report_step (report : str) (item : str * list str) : str :=
  if (1 <? length item.2)%nat then report ++ report_block item.1 item.2
  else report.

Definition report_header (self : SchoolNameNormalizer) : str :=
  u "✅ " ++ str_of_nat (size (normalization_stats self))
  ++ u " noms d'écoles consolidés" ++ [10; 10].

Definition get_normalization_report (self : SchoolNameNormalizer) : str :=
  if decide (normalization_stats self = ∅) then u "Aucune normalisation effectuée"
  else foldl report_step (report_header self) (sorted_items (normalization_stats self)).

(** * Properties *)

(** ** Text *)

Section TextFacts.
Context `{PyLib}.

Lemma apply_replacements_app rules1 rules2 s :
  apply_replacements (rules1 ++ rules2) s
  = apply_replacements rules2 (apply_replacements rules1 s).
Proof.
  revert s. induction rules1 as [|[p r] rules1 IH]; intros s; simpl; [done|].
  apply IH.
Qed.










End TextFacts.

(** ** The consolidation index and the set of originals *)

Section RecordFacts.
Lemma record_found original normalized self :
  found_schools (_record_normalization original normalized self)
  = found_schools self.
Proof. unfold _record_normalization. by repeat case_decide. Qed.

Lemma record_same original self :
  _record_normalization original original self = self.
Proof. unfold _record_normalization. by case_decide. Qed.

Lemma record_recorded original normalized self :
  original ≠ normalized →
  recorded original normalized (_record_normalization original normalized self).
Proof.
  intros Hne. unfold recorded, _record_normalization.
  rewrite decide_True by done.
  destruct (normalization_stats self !! normalized) as [l|] eqn:Hl; simpl.
  - rewrite Hl. simpl. case_decide; simpl.
    + by rewrite Hl.
    + rewrite lookup_insert_eq. simpl. set_solver.
  - rewrite lookup_insert_eq. simpl.
    try case_decide; simpl; rewrite ?lookup_insert_eq; simpl; set_solver.
Qed.

End RecordFacts.

Section NormalizerFacts.
Context `{L : PyLib}.

Lemma normalize_found raw self :
  raw ≠ [] → found_schools (normalize raw self).2 = {[ raw ]} ∪ found_schools self.
Proof.
  intros Hraw. unfold normalize. destruct raw as [|c raw]; [done|].
  destruct (mappings self !! _); simpl; by rewrite record_found.
Qed.

Lemma normalize_empty self : normalize [] self = (ECOLE_INCONNUE, self).
Proof. done. Qed.

Lemma normalize_all_found names self :
  found_schools (normalize_all names self)
  = found_schools self ∪ list_to_set (filter (λ n, n ≠ []) names).
Proof.
  unfold normalize_all. revert self.
  induction names as [|n names IH]; intros self; simpl.
  - by rewrite (right_id_L ∅ (∪)).
  - rewrite IH. destruct (decide (n = [])) as [->|Hn].
    + by rewrite filter_cons_False by (by intros ?).
    + rewrite filter_cons_True by done. rewrite normalize_found by done.
      simpl. rewrite (comm_L (∪) {[ n ]} (found_schools self)).
      by rewrite <- (assoc_L (∪)).
Qed.
End NormalizerFacts.

Section Order.
Lemma str_le_total : Total str_le.
Proof.
  intros a. unfold str_le. induction a as [|x a IH]; intros [|y b]; simpl; auto.
  destruct (N.ltb_spec x y); simpl; [auto|].
  destruct (N.ltb_spec y x); simpl; [auto|].
  assert (x = y) as -> by lia. rewrite N.eqb_refl. simpl. apply IH.
Qed.

Lemma occurrences_NoDup (n : str) l : NoDup l → n ∈ l → occurrences n l = 1%nat.
Proof.
  unfold occurrences. induction 1 as [|x l Hx Hl IH]; intros Hn.
  - by apply elem_of_nil in Hn.
  - destruct (decide (x = n)) as [->|Hne].
    + rewrite filter_cons_True by done. simpl. f_equal.
      assert (filter (λ x, x = n) l = []) as ->; [|done].
      destruct (filter (λ x, x = n) l) as [|y t] eqn:Hf; [done|].
      assert (y ∈ filter (λ x, x = n) l) as Hy by (rewrite Hf; left).
      apply list_elem_of_filter in Hy as [-> Hy]. done.
    + rewrite filter_cons_False by done. apply IH.
      apply elem_of_cons in Hn as [->|Hn]; done.
Qed.
End Order.

(** ** Pages *)

Section PageFacts.
Context `{PyLib}.

Lemma four_groups_length s g :
  four_groups s = Some g → ∃ g1 g2 g3 g4, g = [g1; g2; g3; g4].
Proof.
  unfold four_groups. intros Hg.
  repeat (simplify_option_eq; try case_match); eauto.
Qed.

Lemma skip_any_length s g :
  skip_any s = Some g → ∃ g1 g2 g3 g4, g = [g1; g2; g3; g4].
Proof.
  induction s as [|c s IH]; simpl.
  - done.
  - destruct (four_groups (c :: s)) eqn:E.
    + intros [= <-]. by apply four_groups_length in E.
    + destruct (c =? 10); [done|]. apply IH.
Qed.

Lemma match_at_length p s g :
  match_at p s = Some g → ∃ g1 g2 g3 g4, g = [g1; g2; g3; g4].
Proof.
  destruct p as [kw|kw]; simpl; case_bool_decide; try done.
  - destruct (spaces _) as [r|]; simpl; [|done]. apply four_groups_length.
  - apply skip_any_length.
Qed.

Lemma re_search_length p text g :
  re_search p text = Some g → ∃ g1 g2 g3 g4, g = [g1; g2; g3; g4].
Proof.
  induction text as [|c text IH]; simpl.
  - destruct (match_at p []) eqn:E; [|done]. intros [= <-].
    by apply match_at_length in E.
  - destruct (match_at p (c :: text)) eqn:E.
    + intros [= <-]. by apply match_at_length in E.
    + apply IH.
Qed.

Lemma match_records_positional school norm agent_name source text categorie pattern
    g1 g2 g3 g4 :
  re_search pattern text = Some [g1; g2; g3; g4] →
  match_records school norm agent_name source text (categorie, pattern)
  = page_record school norm agent_name source categorie
      <$> filter (λ jq, 0 < jq.2)%Z
            [ (u "Lundi", int_of_digits g1); (u "Mardi", int_of_digits g2);
              (u "Mercredi", int_of_digits g3); (u "Jeudi", int_of_digits g4) ].
Proof.
  intros Hs. unfold match_records. rewrite Hs.
  change (int_of_digits <$> [g1; g2; g3; g4])
    with [int_of_digits g1; int_of_digits g2; int_of_digits g3; int_of_digits g4].
  change (enumerate (take _ jours))
    with [(0, u "Lundi"); (1, u "Mardi"); (2, u "Mercredi"); (3, u "Jeudi")]%nat.
  generalize (int_of_digits g1) (int_of_digits g2) (int_of_digits g3) (int_of_digits g4).
  intros q1 q2 q3 q4. unfold page_record. cbn [omap list_omap lookup list_lookup].
  rewrite !filter_cons, filter_nil. cbn [snd fst].
  destruct (Z.ltb_spec 0 q1), (Z.ltb_spec 0 q2), (Z.ltb_spec 0 q3), (Z.ltb_spec 0 q4);
    repeat (first [rewrite decide_True by lia | rewrite decide_False by lia]);
    reflexivity.
Qed.
End PageFacts.

(** ** Sheets and categories *)

Section TableFacts.
Context `{PyLib}.

Lemma read_quantity_categorie current_type categorie row col_idx jour r :
  read_quantity current_type categorie row col_idx jour = inr (Some r) →
  row_categorie r = categorie.
Proof.
  unfold read_quantity. intros Hr.
  repeat case_match; simplify_eq; done.
Qed.

Lemma read_columns_categorie current_type categorie row cols data data' :
  categorie ∈ categories →
  Forall (λ r, row_categorie r ∈ categories) data →
  read_columns current_type categorie row cols data = inr data' →
  Forall (λ r, row_categorie r ∈ categories) data'.
Proof.
  intros Hc. revert data.
  induction cols as [|[col_idx jour] cols IH]; intros data Hd; simpl.
  - by intros [= <-].
  - destruct (read_quantity _ _ _ _ _) as [e|[r|]] eqn:Hq.
    + destruct (caught e); [by apply IH|done].
    + apply IH. apply Forall_app; split; [done|].
      apply Forall_singleton. by rewrite (read_quantity_categorie _ _ _ _ _ _ Hq).
    + by apply IH.
Qed.

Lemma read_body_categorie cols rows current_type data data' :
  Forall (λ r, row_categorie r ∈ categories) data →
  read_body cols rows current_type data = inr data' →
  Forall (λ r, row_categorie r ∈ categories) data'.
Proof.
  revert current_type data.
  induction rows as [|row rows IH]; intros current_type data Hd; simpl.
  - by intros [= <-].
  - destruct row as [|c0 row]; [done|].
    case_bool_decide; [by apply IH|].
    case_bool_decide as Hc; [|by apply IH].
    destruct (read_columns _ _ _ _ _) as [e|data1] eqn:Hr; [done|].
    apply IH. by apply (read_columns_categorie _ _ _ _ _ _ Hc Hd Hr).
Qed.

Lemma table_categorie sheet rows :
  _extract_table_data sheet = inr rows →
  Forall (λ r, row_categorie r ∈ categories) rows.
Proof.
  unfold _extract_table_data.
  destruct (scan_header 1 sheet (None, [])) as [header_row jours_colonnes].
  destruct jours_colonnes as [|col cols].
  - by intros [= <-].
  - by apply read_body_categorie.
Qed.

Lemma excel_categorie stem source sheets self rs self' :
  extract_from_excel stem source sheets self = (inr rs, self') →
  Forall (λ r, categorie r ∈ categories) rs.
Proof.
  revert self rs self'.
  induction sheets as [|sheet sheets IH]; intros self rs self'; simpl.
  - by intros [= <- <-].
  - destruct (extract_sheet stem source sheet self) as [[e|rs1] self1] eqn:Hs; [done|].
    destruct (extract_from_excel stem source sheets self1) as [[e|rs2] self2] eqn:Hr;
      [done|].
    intros [= <- <-]. apply Forall_app; split; [|by eapply IH].
    unfold extract_sheet in Hs.
    destruct (scan_meta sheet) as [[school agent_name] period].
    destruct (normalize _ self) as [norm self0].
    destruct (_extract_table_data sheet) as [e|rows] eqn:Ht; [done|].
    injection Hs as <- <-. apply Forall_fmap.
    apply table_categorie in Ht. eapply Forall_impl; [exact Ht|done].
Qed.

Lemma match_records_categorie school norm agent_name source text entry r :
  r ∈ match_records school norm agent_name source text entry →
  categorie r = entry.1.
Proof.
  destruct entry as [cat pattern]. unfold match_records.
  destruct (re_search pattern text) as [groups|]; [|by intros ?%elem_of_nil].
  intros ([i jour] & _ & Hr)%list_elem_of_omap.
  repeat case_match; simplify_eq; done.
Qed.

Lemma page_records_categorie school norm agent_name source text r :
  r ∈ page_records school norm agent_name source text →
  categorie r ∈ pattern_keys.
Proof.
  unfold page_records. rewrite list_elem_of_In, in_flat_map.
  intros (entry & He%list_elem_of_In & Hr%list_elem_of_In).
  rewrite (match_records_categorie _ _ _ _ _ _ _ Hr).
  unfold patterns in He. set_unfold. destruct_or!; subst; simpl; auto 10.
Qed.

Lemma pdf_categorie stem source pages self r :
  r ∈ (extract_from_pdf stem source pages self).1 →
  categorie r ∈ pattern_keys.
Proof.
  revert self. induction pages as [|page pages IH]; intros self; simpl.
  - by intros ?%elem_of_nil.
  - destruct (extract_page stem source page self) as [rs self1] eqn:Hp.
    destruct (extract_from_pdf stem source pages self1) as [rs' self2] eqn:Hr.
    simpl. intros [Hin|Hin]%elem_of_app.
    + unfold extract_page in Hp. destruct page as [[|c text]|]; simplify_eq;
        try by apply elem_of_nil in Hin.
      destruct (foldl scan_line _ _) as [school agent_name].
      destruct (normalize _ self) as [norm self0]. simplify_eq.
      by eapply page_records_categorie.
    + apply (IH self1). by rewrite Hr.
Qed.
End TableFacts.

(** ** The configuration through a batch *)

Section ConfigFacts.
Context `{PyLib}.

Lemma same_config_refl a : same_config a a.
Proof. by split. Qed.

Lemma same_config_trans a b c : same_config a b → same_config b c → same_config a c.
Proof. intros [? ?] [? ?]. split; congruence. Qed.

Lemma record_config original normalized self :
  same_config self (_record_normalization original normalized self).
Proof.
  unfold same_config, _record_normalization. by repeat case_decide.
Qed.

Lemma normalize_config raw self : same_config self (normalize raw self).2.
Proof.
  unfold normalize. destruct raw as [|c raw]; [done|].
  destruct (mappings self !! _); simpl;
    exact (record_config _ _ (add_found (c :: raw) self)).
Qed.

Lemma normalize_result raw a b :
  same_config a b → (normalize raw a).1 = (normalize raw b).1.
Proof.
  intros [Hm Hr]. unfold normalize. destruct raw as [|c raw]; [done|].
  rewrite Hm, Hr. by destruct (mappings b !! _).
Qed.

Lemma extract_page_config stem source page a :
  same_config a (extract_page stem source page a).2.
Proof.
  unfold extract_page. destruct page as [[|c text]|]; try done.
  destruct (foldl scan_line _ _) as [school agent_name].
  pose proof (normalize_config (name_or_stem school stem) a) as Hc.
  by destruct (normalize _ a).
Qed.

Lemma extract_page_result stem source page a b :
  same_config a b →
  (extract_page stem source page a).1 = (extract_page stem source page b).1.
Proof.
  intros Hab. unfold extract_page. destruct page as [[|c text]|]; try done.
  destruct (foldl scan_line _ _) as [school agent_name].
  pose proof (normalize_result (name_or_stem school stem) a b Hab) as Hr.
  destruct (normalize _ a) as [na a'], (normalize _ b) as [nb b']. simpl in *.
  by subst.
Qed.

Lemma extract_from_pdf_config stem source pages a :
  same_config a (extract_from_pdf stem source pages a).2.
Proof.
  revert a. induction pages as [|page pages IH]; intros a; simpl; [done|].
  pose proof (extract_page_config stem source page a) as Hc.
  destruct (extract_page stem source page a) as [ra a']. simpl in *.
  specialize (IH a').
  destruct (extract_from_pdf stem source pages a') as [ra' a'']. simpl in *.
  by eapply same_config_trans.
Qed.

Lemma extract_from_pdf_result stem source pages a b :
  same_config a b →
  (extract_from_pdf stem source pages a).1 = (extract_from_pdf stem source pages b).1.
Proof.
  revert a b. induction pages as [|page pages IH]; intros a b Hab; simpl; [done|].
  pose proof (extract_page_result stem source page a b Hab) as Hr.
  pose proof (extract_page_config stem source page a) as Ha.
  pose proof (extract_page_config stem source page b) as Hb.
  destruct (extract_page stem source page a) as [ra a'],
    (extract_page stem source page b) as [rb b']. simpl in *.
  assert (same_config a' b') as Hab'.
  { destruct Hab, Ha, Hb. split; congruence. }
  specialize (IH a' b' Hab').
  destruct (extract_from_pdf stem source pages a') as [ra' a''],
    (extract_from_pdf stem source pages b') as [rb' b'']. simpl in *.
  by subst.
Qed.

Lemma extract_sheet_config stem source sheet a :
  same_config a (extract_sheet stem source sheet a).2.
Proof.
  unfold extract_sheet.
  destruct (scan_meta sheet) as [[school agent_name] period].
  pose proof (normalize_config (name_or_stem school stem) a) as Hc.
  destruct (normalize _ a). by destruct (_extract_table_data sheet).
Qed.

Lemma extract_sheet_result stem source sheet a b :
  same_config a b →
  (extract_sheet stem source sheet a).1 = (extract_sheet stem source sheet b).1.
Proof.
  intros Hab. unfold extract_sheet.
  destruct (scan_meta sheet) as [[school agent_name] period].
  pose proof (normalize_result (name_or_stem school stem) a b Hab) as Hr.
  destruct (normalize _ a) as [na a'], (normalize _ b) as [nb b']. simpl in *.
  subst. by destruct (_extract_table_data sheet).
Qed.

Lemma extract_from_excel_config stem source sheets a :
  same_config a (extract_from_excel stem source sheets a).2.
Proof.
  revert a. induction sheets as [|sheet sheets IH]; intros a; simpl; [done|].
  pose proof (extract_sheet_config stem source sheet a) as Hc.
  destruct (extract_sheet stem source sheet a) as [[e|rs] a']; [done|]. simpl in *.
  specialize (IH a').
  destruct (extract_from_excel stem source sheets a') as [[e|rs'] a'']; simpl in *;
    by eapply same_config_trans.
Qed.

Lemma extract_from_excel_result stem source sheets a b :
  same_config a b →
  (extract_from_excel stem source sheets a).1 = (extract_from_excel stem source sheets b).1.
Proof.
  revert a b. induction sheets as [|sheet sheets IH]; intros a b Hab; simpl; [done|].
  pose proof (extract_sheet_result stem source sheet a b Hab) as Hr.
  pose proof (extract_sheet_config stem source sheet a) as Ha.
  pose proof (extract_sheet_config stem source sheet b) as Hb.
  destruct (extract_sheet stem source sheet a) as [ra a'],
    (extract_sheet stem source sheet b) as [rb b']. simpl in *. subst rb.
  destruct ra as [e|rs]; [done|].
  assert (same_config a' b') as Hab'.
  { destruct Hab, Ha, Hb. split; congruence. }
  specialize (IH a' b' Hab').
  destruct (extract_from_excel stem source sheets a') as [ra' a''],
    (extract_from_excel stem source sheets b') as [rb' b'']. simpl in *.
  subst rb'. by destruct ra'.
Qed.

Lemma extract_config f a r a' :
  extract f a = Some (r, a') → same_config a a'.
Proof.
  unfold extract. case_bool_decide.
  - destruct (content f) as [sheets|pages|e].
    + intros [= He].
      pose proof (extract_from_excel_config (stem f) (name f) sheets a) as Hc.
      by rewrite He in Hc.
    + intros [= <- <-]. apply same_config_refl.
    + intros [= <- <-]. apply same_config_refl.
  - case_bool_decide; [|done].
    destruct (content f) as [sheets|pages|e].
    + intros [= <- <-]. apply same_config_refl.
    + pose proof (extract_from_pdf_config (stem f) (name f) pages a) as Hc.
      destruct (extract_from_pdf _ _ _ a). by intros [= <- <-].
    + intros [= <- <-]. apply same_config_refl.
Qed.

Lemma extract_result f a b :
  same_config a b →
  fst <$> extract f a = fst <$> extract f b.
Proof.
  intros Hab. unfold extract. case_bool_decide.
  - destruct (content f) as [sheets|pages|e]; try done. simpl.
    pose proof (extract_from_excel_result (stem f) (name f) sheets a b Hab) as Hr.
    destruct (extract_from_excel _ _ _ a), (extract_from_excel _ _ _ b). simpl in *.
    by subst.
  - case_bool_decide; [|done].
    destruct (content f) as [sheets|pages|e]; try done. simpl.
    pose proof (extract_from_pdf_result (stem f) (name f) pages a b Hab) as Hr.
    destruct (extract_from_pdf _ _ _ a), (extract_from_pdf _ _ _ b). simpl in *.
    by subst.
Qed.
End ConfigFacts.

Section BatchFacts.
Context `{PyLib}.
Variable save_fault : list OrderRecord → option exn.

Lemma outcome_of_same a b f :
  same_config a b → outcome_of save_fault a f = outcome_of save_fault b f.
Proof.
  intros Hab. unfold outcome_of. pose proof (extract_result f a b Hab) as He.
  destruct (extract f a) as [[ra a']|], (extract f b) as [[rb b']|]; try done.
  simpl in He. by simplify_eq.
Qed.

Lemma process_file_step b f :
  same_config (normalizer b) (normalizer (process_file save_fault b f))
  ∧ errors (process_file save_fault b f)
    = (errors b + if is_failed (outcome_of save_fault (normalizer b) f) then 1 else 0)%nat
  ∧ processed (process_file save_fault b f)
    = (processed b + if is_stored (outcome_of save_fault (normalizer b) f) then 1 else 0)%nat.
Proof.
  unfold process_file, outcome_of.
  pose proof (extract_config f (normalizer b)) as Hc.
  destruct (extract f (normalizer b)) as [[[e|data] self]|].
  - specialize (Hc _ _ eq_refl). simpl. split; [done|]. split; lia.
  - specialize (Hc _ _ eq_refl). destruct data as [|r data]; simpl.
    + split; [done|]. split; lia.
    + destruct (save_fault (r :: data)); simpl; (split; [done|]); split; lia.
  - split; [apply same_config_refl|]. split; simpl; lia.
Qed.

Lemma process_files_counts files b :
  errors (foldl (process_file save_fault) b files)
  = (errors b
     + length (filter (λ f, is_failed (outcome_of save_fault (normalizer b) f) = true) files))%nat
  ∧ processed (foldl (process_file save_fault) b files)
    = (processed b
       + length (filter (λ f, is_stored (outcome_of save_fault (normalizer b) f) = true) files))%nat.
Proof.
  revert b. induction files as [|f files IH]; intros b; simpl.
  - split; lia.
  - destruct (process_file_step b f) as (Hc & He & Hp).
    destruct (IH (process_file save_fault b f)) as [IHe IHp].
    rewrite IHe, IHp, He, Hp.
    rewrite !filter_cons.
    rewrite (list_filter_iff _ (λ f, is_failed (outcome_of save_fault (normalizer b) f) = true))
      by (intros g; by rewrite (outcome_of_same _ _ g Hc)).
    rewrite (list_filter_iff (λ f0, is_stored (outcome_of save_fault
                (normalizer (process_file save_fault b f)) f0) = true)
              (λ f, is_stored (outcome_of save_fault (normalizer b) f) = true))
      by (intros g; by rewrite (outcome_of_same _ _ g Hc)).
    split.
    + destruct (is_failed _) eqn:E; [rewrite decide_True by done|rewrite decide_False by done];
        simpl; lia.
    + destruct (is_stored (outcome_of save_fault (normalizer b) f)) eqn:E;
        [rewrite decide_True by done|rewrite decide_False by done]; simpl; lia.
Qed.
End BatchFacts.

(** ** The claims *)






(** C8, as stated, fails: a name that the chain leaves unchanged is not
    entered in the consolidation index. *)
Lemma unchanged_name_not_recorded :
  u "ABC" ≠ []
  ∧ mappings without_rules !! key (H := ascii_lib) (u "ABC") = None
  ∧ (normalize (H := ascii_lib) (u "ABC") without_rules).1 = u "ABC"
  ∧ ¬ recorded (u "ABC") (u "ABC")
        (normalize (H := ascii_lib) (u "ABC") without_rules).2.
Proof.
  split; [done|]. split; [by vm_compute|]. split; [by vm_compute|].
  unfold recorded. vm_compute. by intros ?%elem_of_nil.
Qed.

(** C8, amended: for a raw name that is not empty and whose key is not in
    the mapping table, [normalize] adds the raw name to the set of originals
    on every call, and enters (raw name → result) in the consolidation index
    when the result differs from the raw name; when they are equal the index
    is left as it was. *)
Theorem normalize_unmapped_records `{PyLib} (raw : str) (self : SchoolNameNormalizer) :
  raw ≠ [] →
  mappings self !! key raw = None →
  found_schools (normalize raw self).2 = {[ raw ]} ∪ found_schools self
  ∧ (raw ≠ (normalize raw self).1 →
     recorded raw (normalize raw self).1 (normalize raw self).2)
  ∧ (raw = (normalize raw self).1 →
     normalization_stats (normalize raw self).2 = normalization_stats self).
Proof.
  intros Hraw Hkey. split; [by apply normalize_found|].
  unfold normalize, key in *. destruct raw as [|c raw]; [done|]. rewrite Hkey.
  cbv zeta. simpl fst. simpl snd. split.
  - intros Hne. by apply record_recorded.
  - intros Heq. rewrite <- Heq at 1. by rewrite record_same.
Qed.

Lemma normalize_unmapped_records_witness :
  u "ecole jean moulin" ≠ []
  ∧ mappings without_rules !! key (H := ascii_lib) (u "ecole jean moulin") = None
  ∧ u "ecole jean moulin" ∈ found_schools
      (normalize (H := ascii_lib) (u "ecole jean moulin") without_rules).2
  ∧ recorded (u "ecole jean moulin") (u "ECOLE JEAN MOULIN")
      (normalize (H := ascii_lib) (u "ecole jean moulin") without_rules).2.
Proof.
  assert (u "ecole jean moulin" ≠ []) as H1 by done.
  assert (mappings without_rules !! key (H := ascii_lib) (u "ecole jean moulin")
          = None) as H2 by (by vm_compute).
  destruct (normalize_unmapped_records (H := ascii_lib) _ _ H1 H2) as (F & R & _).
  split_and!; [done|done| |].
  - rewrite F. apply elem_of_union_l, elem_of_singleton. done.
  - apply R. by vm_compute.
Defined.

(** C9, as stated, fails: the empty name can be passed to [normalize] and
    is not in the exported list. *)
Lemma empty_name_not_exported :
  u "" ∈ [u ""]
  ∧ u "" ∉ (export_found_schools (normalize_all (H := ascii_lib) [u ""] init)).2.
Proof. split; [by left|]. vm_compute. by intros ?%elem_of_nil. Qed.

(** C9, amended: every name that is not empty and was passed to
    [normalize] during a run stands exactly once in the exported list, which
    is sorted and without duplicates, and whose length is the exported
    total; the empty name is answered with [ECOLE_INCONNUE], leaves the state
    as it was, and is not in the exported list of a run that started without
    it. *)
Theorem export_lists_each_name_once `{PyLib} (names : list str)
    (self : SchoolNameNormalizer) :
  Sorted str_le (export_found_schools (normalize_all names self)).2
  ∧ NoDup (export_found_schools (normalize_all names self)).2
  ∧ (export_found_schools (normalize_all names self)).1
    = length (export_found_schools (normalize_all names self)).2
  ∧ (∀ n, n ∈ names → n ≠ [] →
       occurrences n (export_found_schools (normalize_all names self)).2 = 1%nat)
  ∧ (∀ st, normalize [] st = (ECOLE_INCONNUE, st))
  ∧ ([] ∉ found_schools self →
     [] ∉ (export_found_schools (normalize_all names self)).2).
Proof.
  unfold export_found_schools, sorted. simpl.
  assert (NoDup (merge_sort str_le (elements (found_schools (normalize_all names self)))))
    as Hnd.
  { rewrite merge_sort_Permutation. apply NoDup_elements. }
  split_and!.
  - apply Sorted_merge_sort, str_le_total.
  - done.
  - by rewrite merge_sort_Permutation.
  - intros n Hn Hne. apply occurrences_NoDup; [done|].
    rewrite merge_sort_Permutation. apply elem_of_elements.
    rewrite normalize_all_found. apply elem_of_union_r, elem_of_list_to_set.
    by apply list_elem_of_filter.
  - intros st. apply normalize_empty.
  - intros Hself. rewrite merge_sort_Permutation, elem_of_elements, normalize_all_found.
    intros [Hin|Hin]%elem_of_union; [done|].
    apply elem_of_list_to_set, list_elem_of_filter in Hin as [Hne _]. done.
Qed.

Lemma export_lists_each_name_once_witness :
  u "B" ∈ [u "B"; u ""; u "A"; u "B"]
  ∧ u "B" ≠ []
  ∧ (u "" ∉ found_schools without_rules)
  ∧ (export_found_schools
       (normalize_all (H := ascii_lib) [u "B"; u ""; u "A"; u "B"] without_rules)).2
    = [u "A"; u "B"]
  ∧ occurrences (u "B")
      (export_found_schools
         (normalize_all (H := ascii_lib) [u "B"; u ""; u "A"; u "B"] without_rules)).2
    = 1%nat
  ∧ u "" ∉ (export_found_schools
              (normalize_all (H := ascii_lib) [u "B"; u ""; u "A"; u "B"]
                 without_rules)).2.
Proof.
  assert (u "B" ∈ [u "B"; u ""; u "A"; u "B"]) as H1 by left.
  assert (u "B" ≠ []) as H2 by done.
  assert (u "" ∉ found_schools without_rules) as H3.
  { change (found_schools without_rules) with (∅ : gset str). apply not_elem_of_empty. }
  destruct (export_lists_each_name_once (H := ascii_lib)
              [u "B"; u ""; u "A"; u "B"] without_rules)
    as (_ & _ & _ & O & _ & E).
  split_and!; [done|done|done|by vm_compute|by apply O|by apply E].
Defined.

(** C5: on a page, when the pattern of a category is found, its four
    captured groups are the quantities of Monday, Tuesday, Wednesday and
    Thursday in this order, a record is kept for each quantity above zero,
    and no record is for Friday.  On the page [Standard 4 0 2 1] the records
    are those of Monday (4), Wednesday (2) and Thursday (1). *)
Theorem page_quantities_on_first_four_weekdays :
  (∀ (L : PyLib) (school norm : str) (agent_name : option str)
     (source text categorie : str) (pattern : quantity_pattern) (groups : list str),
     re_search pattern text = Some groups →
     ∃ g1 g2 g3 g4,
       groups = [g1; g2; g3; g4]
       ∧ match_records school norm agent_name source text (categorie, pattern)
         = page_record school norm agent_name source categorie
             <$> filter (λ jq, 0 < jq.2)%Z
                   [ (u "Lundi", int_of_digits g1); (u "Mardi", int_of_digits g2);
                     (u "Mercredi", int_of_digits g3); (u "Jeudi", int_of_digits g4) ]
       ∧ ∀ r, r ∈ match_records school norm agent_name source text (categorie, pattern) →
           jour_semaine r ∈ [u "Lundi"; u "Mardi"; u "Mercredi"; u "Jeudi"]
           ∧ (0 < quantite r)%Z)
  ∧ (∀ (school norm : str) (agent_name : option str) (source : str),
       page_records (H := ascii_lib) school norm agent_name source (u "Standard 4 0 2 1")
       = page_record school norm agent_name source (u "Standard")
           <$> [ (u "Lundi", 4%Z); (u "Mercredi", 2%Z); (u "Jeudi", 1%Z) ]).
Proof.
  split; [|by vm_compute].
  intros L school norm agent_name source text categorie pattern groups Hs.
  destruct (re_search_length _ _ _ Hs) as (g1 & g2 & g3 & g4 & ->).
  exists g1, g2, g3, g4. split; [done|].
  rewrite (match_records_positional _ _ _ _ _ _ _ _ _ _ _ Hs). split; [done|].
  intros r ([jour q] & -> & [Hq Hin]%list_elem_of_filter)%list_elem_of_fmap.
  split; [|done]. simpl in *. set_unfold. destruct_or!; simplify_eq; auto.
Qed.

Lemma page_quantities_on_first_four_weekdays_witness :
  re_search (H := ascii_lib) (After_spaces (u "Standard")) (u "Standard 4 0 2 1")
  = Some [u "4"; u "0"; u "2"; u "1"]
  ∧ match_records (H := ascii_lib) (u "Ecole A") (u "A") None (u "a.pdf")
      (u "Standard 4 0 2 1") (u "Standard", After_spaces (u "Standard"))
    = page_record (u "Ecole A") (u "A") None (u "a.pdf") (u "Standard")
        <$> [ (u "Lundi", 4%Z); (u "Mercredi", 2%Z); (u "Jeudi", 1%Z) ].
Proof.
  assert (re_search (H := ascii_lib) (After_spaces (u "Standard")) (u "Standard 4 0 2 1")
          = Some [u "4"; u "0"; u "2"; u "1"]) as Hs by (by vm_compute).
  split; [done|].
  destruct (proj1 page_quantities_on_first_four_weekdays ascii_lib
              (u "Ecole A") (u "A") None (u "a.pdf") _ (u "Standard") _ _ Hs)
    as (g1 & g2 & g3 & g4 & Hg & Hr & _).
  rewrite Hr. injection Hg as <- <- <- <-. by vm_compute.
Defined.

(** C3 at the sheet with header [Lundi] and the row [Standard, 0.5]: the
    cell passes the test [quantite > 0] and is stored as [int(0.5)], a record
    of quantity 0. *)
Theorem fractional_quantity_is_stored_as_zero :
  _extract_table_data (H := ascii_lib) half_portion_sheet
  = inr [ {| row_type_repas := None; row_categorie := u "Standard";
             row_jour_semaine := u "Lundi"; row_quantite := 0 |} ].
Proof. by vm_compute. Qed.

(** C10 at the sheet with header [Lundi, Mardi] and the row
    [Standard, inf, 3]: [int(inf)] raises [OverflowError], which the guard of
    the cell does not catch; the exception leaves [_extract_table_data]. *)
Theorem infinite_quantity_raises :
  _extract_table_data (H := ascii_lib) infinite_cell_sheet = inl OverflowError.
Proof. by vm_compute. Qed.

(** C6 at a sheet whose header row holds [Lundi] in column 1 only and whose
    next row holds the text [Mardi] in column 2: the scan stops after the row
    that follows the header row, so column 2 is recorded as a weekday column
    and the quantities of that column are emitted for [Mardi]. *)
Theorem header_scan_reads_row_below_header :
  weekday_below_header_sheet !! 0%nat = Some [CNone; CStr (u "Lundi"); CNone]
  ∧ scan_header (H := ascii_lib) 1 weekday_below_header_sheet (None, [])
    = (Some 1%nat, [(1%nat, u "LUNDI"); (2%nat, u "MARDI")])
  ∧ _extract_table_data (H := ascii_lib) weekday_below_header_sheet
    = inr [ {| row_type_repas := None; row_categorie := u "Standard";
               row_jour_semaine := u "Lundi"; row_quantite := 5 |};
            {| row_type_repas := None; row_categorie := u "Halal";
               row_jour_semaine := u "Lundi"; row_quantite := 1 |};
            {| row_type_repas := None; row_categorie := u "Halal";
               row_jour_semaine := u "Mardi"; row_quantite := 7 |} ].
Proof. split_and!; by vm_compute. Qed.

(** C7, as stated, fails: on the page [Enfants 1 2 3 4] the records carry
    the category [Enfants]. *)
Lemma enfants_is_emitted_as_category :
  ∃ r, r ∈ (extract_from_pdf (H := ascii_lib) (u "a") (u "a.pdf")
              [Some (u "Enfants 1 2 3 4")] init).1
       ∧ categorie r = u "Enfants"
       ∧ categorie r ∉ categories.
Proof.
  eexists. split; [vm_compute; left|]. split; [done|].
  vm_compute. intros Hin.
  repeat (apply elem_of_cons in Hin as [Hin|Hin]; [discriminate|]).
  by apply elem_of_nil in Hin.
Qed.

(** C7, amended: every record of a workbook carries one of the categories
    Standard, Sans porc, Végétarien, Halal; every record of a PDF document
    carries one of the five keys of the pattern table, which are these four
    and Enfants. *)
Theorem emitted_categories `{PyLib} :
  (∀ stem source sheets self rs self' r,
     extract_from_excel stem source sheets self = (inr rs, self') →
     r ∈ rs → categorie r ∈ categories)
  ∧ (∀ stem source pages self r,
       r ∈ (extract_from_pdf stem source pages self).1 →
       categorie r ∈ pattern_keys).
Proof.
  split.
  - intros stem source sheets self rs self' r He Hr.
    apply excel_categorie in He. by apply (proj1 (Forall_forall _ _) He).
  - intros stem source pages self r. apply pdf_categorie.
Qed.

Lemma emitted_categories_witness :
  (extract_from_excel (H := ascii_lib) (u "a") (u "a.xlsx") [plain_sheet] init).1
  = inr [ {| ecole := u "a"; ecole_normalized := u "A"; agent := None;
             periode := None; type_repas := Some (u "Enfants");
             categorie := u "Standard"; jour_semaine := u "Lundi";
             quantite := 10; source_fichier := u "a.xlsx" |} ]
  ∧ u "Standard" ∈ categories.
Proof.
  assert ((extract_from_excel (H := ascii_lib) (u "a") (u "a.xlsx") [plain_sheet] init).1
          = inr [ {| ecole := u "a"; ecole_normalized := u "A"; agent := None;
             periode := None; type_repas := Some (u "Enfants");
             categorie := u "Standard"; jour_semaine := u "Lundi";
             quantite := 10; source_fichier := u "a.xlsx" |} ]) as He by (by vm_compute).
  split; [done|].
  destruct (extract_from_excel (H := ascii_lib) (u "a") (u "a.xlsx") [plain_sheet] init)
    as [res self'] eqn:E.
  simpl in He. subst res.
  refine (proj1 (emitted_categories (H := ascii_lib)) _ _ _ _ _ _
            {| ecole := u "a"; ecole_normalized := u "A"; agent := None;
               periode := None; type_repas := Some (u "Enfants");
               categorie := u "Standard"; jour_semaine := u "Lundi";
               quantite := 10; source_fichier := u "a.xlsx" |} E _).
  left.
Defined.

(** C4, as stated, fails: of five files where only the third raises, the
    first yields no record; it is counted neither as processed nor as
    errored, and the processed counter ends at 3. *)
Lemma file_without_records_is_not_processed :
  is_failed <$> (outcome_of (H := ascii_lib) no_fault init <$> one_empty_one_broken)
  = [false; false; true; false; false]
  ∧ (run (H := ascii_lib) no_fault one_empty_one_broken init).1
    = Some {| files_processed := 3; files_total := 5; files_errored := 1;
              records_total := 9 |}.
Proof. split; by vm_compute. Qed.

(** C4, amended: a run over at least one file ends with a summary; the
    error counter is the number of files whose extraction or storage raises,
    the processed counter is the number of files that yield at least one
    record and are stored, and a file that yields no record counts in
    neither.  Over five files where the third raises and the four others
    yield records, the counters are 1 and 4. *)
Theorem run_isolates_failures `{PyLib} (save_fault : list OrderRecord → option exn)
    (files : list File) (self : SchoolNameNormalizer) :
  files ≠ [] →
  ∃ summary,
    (run save_fault files self).1 = Some summary
    ∧ files_total summary = length files
    ∧ files_errored summary
      = length (filter (λ f, is_failed (outcome_of save_fault self f) = true) files)
    ∧ files_processed summary
      = length (filter (λ f, is_stored (outcome_of save_fault self f) = true) files)
    ∧ ∀ f1 f2 f3 f4 f5,
        files = [f1; f2; f3; f4; f5] →
        is_failed (outcome_of save_fault self f3) = true →
        Forall (λ f, is_stored (outcome_of save_fault self f) = true) [f1; f2; f4; f5] →
        files_errored summary = 1%nat ∧ files_processed summary = 4%nat.
Proof.
  intros Hne. unfold run. destruct files as [|f files]; [done|].
  eexists. split; [done|]. simpl fst.
  destruct (process_files_counts save_fault (f :: files) (start self)) as [He Hp].
  cbn [files_total files_errored files_processed].
  split; [done|]. split; [exact He|]. split; [exact Hp|].
  intros f1 f2 f3 f4 f5 Hf H3 H1245.
  rewrite He, Hp, Hf. cbn [start errors processed normalizer].
  apply Forall_cons in H1245 as [H1 H1245]. apply Forall_cons in H1245 as [H2 H1245].
  apply Forall_cons in H1245 as [H4 H1245]. apply Forall_cons in H1245 as [H5 _].
  rewrite !filter_cons, !filter_nil.
  assert (∀ o, is_stored o = true → is_failed o = false) as Hsf by (by intros []).
  assert (∀ o, is_failed o = true → is_stored o = false) as Hfs by (by intros []).
  rewrite (Hsf _ H1), (Hsf _ H2), (Hsf _ H4), (Hsf _ H5), (Hfs _ H3), H1, H2, H3, H4, H5.
  done.
Qed.

Lemma run_isolates_failures_witness :
  one_broken ≠ []
  ∧ (run (H := ascii_lib) no_fault one_broken init).1
    = Some {| files_processed := 4; files_total := 5; files_errored := 1;
              records_total := 11 |}.
Proof.
  assert (one_broken ≠ []) as Hne by done.
  destruct (run_isolates_failures (H := ascii_lib) no_fault one_broken init Hne)
    as (summary & Hs & _).
  split; [done|]. by vm_compute.
Defined.

(** ** Further properties of the sheet extractor *)

Section HeaderFacts.
Context `{PyLib}.

Lemma scan_cell_other row_idx col_idx c st :
  is_weekday_cell c = false → scan_cell row_idx col_idx c st = st.
Proof.
  unfold is_weekday_cell, scan_cell. destruct c as [|s| | | |]; try done.
  destruct (truthy (CStr s)); [|done]. simpl. by intros ->.
Qed.

Lemma scan_row_other row_idx col_idx row st :
  Forall (λ c, is_weekday_cell c = false) row →
  scan_row row_idx col_idx row st = st.
Proof.
  intros Hrow. revert col_idx.
  induction Hrow as [|c row Hc Hrow IH]; intros col_idx; simpl; [done|].
  by rewrite scan_cell_other.
Qed.

Lemma scan_header_other row_idx rows :
  Forall (Forall (λ c, is_weekday_cell c = false)) rows →
  scan_header row_idx rows (None, []) = (None, []).
Proof.
  intros Hrows. revert row_idx.
  induction Hrows as [|row rows Hrow Hrows IH]; intros row_idx; simpl; [done|].
  rewrite scan_row_other by done. simpl. apply IH.
Qed.

Lemma scan_cell_header row_idx col_idx c st h :
  st.1 = Some h → (scan_cell row_idx col_idx c st).1 = Some h.
Proof.
  intros Hh. unfold scan_cell. repeat case_match; simpl; try done; congruence.
Qed.

Lemma scan_row_header row_idx col_idx row st h :
  st.1 = Some h → (scan_row row_idx col_idx row st).1 = Some h.
Proof.
  revert col_idx st. induction row as [|c row IH]; intros col_idx st Hh; simpl; [done|].
  apply IH. by apply scan_cell_header.
Qed.

Lemma scan_row_weekday row_idx col_idx row st :
  st.1 = None →
  Exists (λ c, is_weekday_cell c = true) row →
  (scan_row row_idx col_idx row st).1 = Some row_idx.
Proof.
  intros Hst Hex. revert col_idx st Hst.
  induction Hex as [c row Hc|c row Hex IH]; intros col_idx st Hst; simpl.
  - apply scan_row_header. unfold is_weekday_cell, scan_cell in *.
    destruct c as [|s| | | |]; try done.
    apply andb_true_iff in Hc as [-> ->]. simpl. by rewrite Hst.
  - destruct (scan_cell row_idx col_idx c st).1 as [h|] eqn:Hh.
    + assert (h = row_idx) as ->.
      { unfold scan_cell in Hh. repeat case_match; simpl in *; congruence. }
      by apply scan_row_header.
    + by apply IH.
Qed.

Lemma scan_header_header row_idx rows st h :
  st.1 = Some h → (scan_header row_idx rows st).1 = Some h.
Proof.
  revert row_idx st. induction rows as [|row rows IH]; intros row_idx st Hh; simpl; [done|].
  rewrite (scan_row_header row_idx 0 row st h Hh).
  case_decide; [by apply scan_row_header|]. apply IH. by apply scan_row_header.
Qed.

Lemma scan_header_skip row_idx above rows :
  Forall (Forall (λ c, is_weekday_cell c = false)) above →
  scan_header row_idx (above ++ rows) (None, [])
  = scan_header (length above + row_idx) rows (None, []).
Proof.
  intros Habove. revert row_idx.
  induction Habove as [|row above Hrow Habove IH]; intros row_idx; simpl; [done|].
  rewrite scan_row_other by done. simpl. rewrite IH. f_equal. lia.
Qed.
End HeaderFacts.

(** X1: a sheet in which no cell holds the name of a weekday yields no
    row. *)
Theorem sheet_without_weekday_yields_nothing `{PyLib} (sheet : list (list cell)) :
  Forall (Forall (λ c, is_weekday_cell c = false)) sheet →
  _extract_table_data sheet = inr [].
Proof.
  intros Hs. unfold _extract_table_data. by rewrite scan_header_other.
Qed.

Lemma sheet_without_weekday_yields_nothing_witness :
  Forall (Forall (λ c, is_weekday_cell (H := ascii_lib) c = false)) sheet_without_weekday
  ∧ _extract_table_data (H := ascii_lib) sheet_without_weekday = inr [].
Proof.
  assert (Forall (Forall (λ c, is_weekday_cell (H := ascii_lib) c = false))
            sheet_without_weekday) as Hs.
  { repeat (apply Forall_cons; split); try apply Forall_nil; by vm_compute. }
  split; [done|].
  exact (sheet_without_weekday_yields_nothing (H := ascii_lib) _ Hs).
Defined.

(** X2: the first row, from the top, that holds the name of a weekday is
    the header row. *)
Theorem first_weekday_row_is_header `{PyLib} (above : list (list cell))
    (row : list cell) (below : list (list cell)) :
  Forall (Forall (λ c, is_weekday_cell c = false)) above →
  Exists (λ c, is_weekday_cell c = true) row →
  (scan_header 1 (above ++ row :: below) (None, [])).1 = Some (S (length above)).
Proof.
  intros Habove Hrow. rewrite scan_header_skip by done. simpl.
  pose proof (scan_row_weekday (length above + 1) 0 row (None, []) eq_refl Hrow) as Hh.
  rewrite Hh. replace (S (length above)) with (length above + 1)%nat by lia.
  case_decide; [lia|]. apply scan_header_header. exact Hh.
Qed.

Lemma first_weekday_row_is_header_witness :
  Forall (Forall (λ c, is_weekday_cell (H := ascii_lib) c = false))
    [[CStr (u "Menu de la semaine")]]
  ∧ Exists (λ c, is_weekday_cell (H := ascii_lib) c = true) [CNone; CStr (u " lundi ")]
  ∧ (scan_header (H := ascii_lib) 1
       ([[CStr (u "Menu de la semaine")]]
        ++ [CNone; CStr (u " lundi ")] :: [[CStr (u "Standard"); CInt 4]])
       (None, [])).1 = Some 2%nat.
Proof.
  assert (Forall (Forall (λ c, is_weekday_cell (H := ascii_lib) c = false))
            [[CStr (u "Menu de la semaine")]]) as Ha.
  { repeat (apply Forall_cons; split); try apply Forall_nil; by vm_compute. }
  assert (Exists (λ c, is_weekday_cell (H := ascii_lib) c = true)
            [CNone; CStr (u " lundi ")]) as Hr.
  { right. left. by vm_compute. }
  split; [done|]. split; [done|].
  exact (first_weekday_row_is_header (H := ascii_lib) _ _
           [[CStr (u "Standard"); CInt 4]] Ha Hr).
Defined.

Section QuantityFacts.
Context `{PyLib}.

Lemma int_of_float_nonneg m e z :
  (0 < m)%Z → int_of_float (Finite m e) = inr z → (0 ≤ z)%Z.
Proof.
  intros Hm [= <-]. destruct (Z.leb_spec 0 e).
  - apply Z.mul_nonneg_nonneg; [lia|]. by apply Z.pow_nonneg.
  - apply Z.quot_pos; [lia|]. apply Z.pow_pos_nonneg; lia.
Qed.

Lemma read_quantity_nonneg current_type categorie row col_idx jour r :
  read_quantity current_type categorie row col_idx jour = inr (Some r) →
  (0 ≤ row_quantite r)%Z.
Proof.
  unfold read_quantity. destruct (row !! col_idx) as [q|]; [|done].
  destruct (is_number q && number_pos q) eqn:Hq; [|done].
  apply andb_true_iff in Hq as [Hn Hp].
  destruct (int_of q) as [e|n] eqn:Hi; [done|]. intros [= <-]. simpl.
  destruct q as [|s|b|z|f|t]; try done; simpl in *.
  - injection Hi as <-. by destruct b.
  - injection Hi as <-. apply Z.ltb_lt in Hp. lia.
  - destruct f as [m e| | |]; try done. simpl in Hp. apply Z.ltb_lt in Hp.
    by apply (int_of_float_nonneg m e).
Qed.

Lemma read_columns_nonneg current_type categorie row cols data data' :
  Forall (λ r, 0 ≤ row_quantite r)%Z data →
  read_columns current_type categorie row cols data = inr data' →
  Forall (λ r, 0 ≤ row_quantite r)%Z data'.
Proof.
  revert data. induction cols as [|[col_idx jour] cols IH]; intros data Hd; simpl.
  - by intros [= <-].
  - destruct (read_quantity _ _ _ _ _) as [e|[r|]] eqn:Hq.
    + destruct (caught e); [by apply IH|done].
    + apply IH. apply Forall_app; split; [done|].
      apply Forall_singleton. by apply read_quantity_nonneg in Hq.
    + by apply IH.
Qed.

Lemma read_body_nonneg cols rows current_type data data' :
  Forall (λ r, 0 ≤ row_quantite r)%Z data →
  read_body cols rows current_type data = inr data' →
  Forall (λ r, 0 ≤ row_quantite r)%Z data'.
Proof.
  revert current_type data.
  induction rows as [|row rows IH]; intros current_type data Hd; simpl.
  - by intros [= <-].
  - destruct row as [|c0 row]; [done|].
    case_bool_decide; [by apply IH|].
    case_bool_decide; [|by apply IH].
    destruct (read_columns _ _ _ _ _) as [e|data1] eqn:Hr; [done|].
    apply IH. by apply (read_columns_nonneg _ _ _ _ _ _ Hd Hr).
Qed.

Lemma read_quantity_guarded current_type categorie row col_idx jour e :
  Forall (λ c, c ≠ CFloat PosInf) row →
  read_quantity current_type categorie row col_idx jour = inl e →
  caught e = true.
Proof.
  intros Hrow. unfold read_quantity.
  destruct (row !! col_idx) as [q|] eqn:Hl; [|by intros [= <-]].
  assert (q ≠ CFloat PosInf) as Hq.
  { apply (proj1 (Forall_forall _ _) Hrow). by eapply list_elem_of_lookup_2. }
  destruct (is_number q && number_pos q) eqn:Hn; [|done].
  destruct q as [|s|b|z|f|t]; try done. destruct f as [m x| | |]; done.
Qed.
End QuantityFacts.

(** X3: no row of a sheet carries a negative quantity. *)
Theorem table_quantities_not_negative `{PyLib} (sheet : list (list cell))
    (rows : list TableRow) (r : TableRow) :
  _extract_table_data sheet = inr rows →
  r ∈ rows →
  (0 ≤ row_quantite r)%Z.
Proof.
  unfold _extract_table_data.
  destruct (scan_header 1 sheet (None, [])) as [header_row jours_colonnes].
  destruct jours_colonnes as [|col cols].
  - intros [= <-]. by intros ?%elem_of_nil.
  - intros Hb.
    pose proof (read_body_nonneg _ _ _ [] rows (Forall_nil_2 _) Hb) as Hall.
    apply (proj1 (Forall_forall _ _) Hall).
Qed.

Lemma table_quantities_not_negative_witness :
  _extract_table_data (H := ascii_lib) plain_sheet
  = inr [ {| row_type_repas := Some (u "Enfants"); row_categorie := u "Standard";
             row_jour_semaine := u "Lundi"; row_quantite := 10 |} ]
  ∧ (0 ≤ 10)%Z.
Proof.
  assert (_extract_table_data (H := ascii_lib) plain_sheet
          = inr [ {| row_type_repas := Some (u "Enfants"); row_categorie := u "Standard";
                     row_jour_semaine := u "Lundi"; row_quantite := 10 |} ]) as He
    by (by vm_compute).
  split; [done|].
  refine (table_quantities_not_negative (H := ascii_lib) plain_sheet _
            {| row_type_repas := Some (u "Enfants"); row_categorie := u "Standard";
               row_jour_semaine := u "Lundi"; row_quantite := 10 |} He _).
  left.
Defined.

(** X4: on a row without an infinite float, reading the weekday columns
    raises nothing, and a column beyond the end of the row or holding a value
    that is not a number is passed over, the columns after it being read as
    if it were not there. *)
Theorem quantity_cells_are_guarded `{PyLib} (current_type : option str)
    (categorie : str) (row : list cell) (cols : list (nat * str))
    (data : list TableRow) :
  Forall (λ c, c ≠ CFloat PosInf) row →
  (∃ data', read_columns current_type categorie row cols data = inr data')
  ∧ ∀ col_idx jour,
      (row !! col_idx = None
       ∨ ∃ c, row !! col_idx = Some c ∧ is_number c = false) →
      read_columns current_type categorie row ((col_idx, jour) :: cols) data
      = read_columns current_type categorie row cols data.
Proof.
  intros Hrow. split.
  - revert data. induction cols as [|[col_idx jour] cols IH]; intros data; simpl.
    + by eexists.
    + destruct (read_quantity _ _ _ _ _) as [e|[r|]] eqn:Hq; [|apply IH..].
      rewrite (read_quantity_guarded _ _ _ _ _ _ Hrow Hq). apply IH.
  - intros col_idx jour Hc. simpl. unfold read_quantity.
    destruct Hc as [->|(c & -> & Hn)]; [done|]. by rewrite Hn.
Qed.

Lemma quantity_cells_are_guarded_witness :
  Forall (λ c, c ≠ CFloat PosInf) [CStr (u "Standard"); CStr (u "x"); CInt 3]
  ∧ read_columns (H := ascii_lib) None (u "Standard")
      [CStr (u "Standard"); CStr (u "x"); CInt 3]
      [(1%nat, u "LUNDI"); (5%nat, u "MARDI"); (2%nat, u "MERCREDI")] []
    = inr [ {| row_type_repas := None; row_categorie := u "Standard";
               row_jour_semaine := u "Mercredi"; row_quantite := 3 |} ].
Proof.
  assert (Forall (λ c, c ≠ CFloat PosInf) [CStr (u "Standard"); CStr (u "x"); CInt 3])
    as Hrow by (repeat (apply Forall_cons; split); try apply Forall_nil; done).
  split; [done|].
  destruct (quantity_cells_are_guarded (H := ascii_lib) None (u "Standard") _
              [(2%nat, u "MERCREDI")] [] Hrow) as [_ Hskip].
  destruct (quantity_cells_are_guarded (H := ascii_lib) None (u "Standard") _
              [(5%nat, u "MARDI"); (2%nat, u "MERCREDI")] [] Hrow) as [_ Hskip'].
  rewrite (Hskip' 1%nat (u "LUNDI")) by (right; by eexists).
  rewrite (Hskip 5%nat (u "MARDI")) by (by left).
  by vm_compute.
Defined.

(** ** Repeated calls of normalize *)

Section RunFacts.
Context `{PyLib}.

Lemma add_found_seen original self :
  original ∈ found_schools self → add_found original self = self.
Proof.
  intros Hin. destruct self as [m r f s]. unfold add_found. simpl in *.
  f_equal. apply subseteq_union_1_L. by apply singleton_subseteq_l.
Qed.

Lemma record_again original normalized self :
  recorded original normalized self →
  _record_normalization original normalized self = self.
Proof.
  unfold recorded, _record_normalization. intros Hin.
  case_decide; [|done].
  destruct (normalization_stats self !! normalized) as [l|] eqn:Hl; simpl in *;
    [|by apply elem_of_nil in Hin].
  rewrite Hl. simpl. rewrite decide_True by done. by destruct self.
Qed.

Lemma record_recorded_or_same original normalized self :
  _record_normalization original normalized
    (_record_normalization original normalized self)
  = _record_normalization original normalized self.
Proof.
  destruct (decide (original = normalized)) as [->|Hne].
  - by rewrite !record_same.
  - by apply record_again, record_recorded.
Qed.

Lemma record_add_found o original normalized self :
  _record_normalization original normalized (add_found o self)
  = add_found o (_record_normalization original normalized self).
Proof.
  unfold _record_normalization. simpl. case_decide; [|done].
  destruct (normalization_stats self !! normalized); simpl; by case_decide.
Qed.

Lemma normalize_all_config names self :
  same_config self (normalize_all names self).
Proof.
  unfold normalize_all. revert self.
  induction names as [|n names IH]; intros self; simpl; [apply same_config_refl|].
  eapply same_config_trans; [apply normalize_config|apply IH].
Qed.

Lemma normalize_all_app names1 names2 self :
  normalize_all (names1 ++ names2) self
  = normalize_all names2 (normalize_all names1 self).
Proof. unfold normalize_all. apply foldl_app. Qed.

Lemma record_stats_other original normalized self canonical :
  canonical ≠ normalized →
  normalization_stats (_record_normalization original normalized self) !! canonical
  = normalization_stats self !! canonical.
Proof.
  intros Hne. unfold _record_normalization. case_decide; [|done].
  destruct (normalization_stats self !! normalized) as [l|] eqn:Hl; simpl.
  - rewrite Hl. simpl. case_decide; simpl; [done|]. by rewrite lookup_insert_ne.
  - rewrite lookup_insert_eq. simpl.
    destruct (decide (original ∈ [])) as [Hin|_]; [by apply elem_of_nil in Hin|].
    simpl. by rewrite !lookup_insert_ne.
Qed.

Lemma record_stats_same original normalized self :
  original ≠ normalized →
  normalization_stats (_record_normalization original normalized self) !! normalized
  = Some (let l := default [] (normalization_stats self !! normalized) in
          if decide (original ∈ l) then l else l ++ [original]).
Proof.
  intros Hne. unfold _record_normalization. rewrite decide_True by done.
  destruct (normalization_stats self !! normalized) as [l|] eqn:Hl; simpl.
  - rewrite Hl. simpl. case_decide; simpl; [done|]. by rewrite lookup_insert_eq.
  - rewrite lookup_insert_eq. simpl.
    destruct (decide (original ∈ [])) as [Hin|_]; [by apply elem_of_nil in Hin|].
    simpl. by rewrite lookup_insert_eq.
Qed.

Lemma normalize_recorded_stays raw original canonical self :
  recorded original canonical self →
  recorded original canonical (normalize raw self).2.
Proof.
  intros Hrec. unfold normalize. destruct raw as [|c raw]; [done|].
  assert (∀ r, recorded original canonical
                 (_record_normalization (c :: raw) r (add_found (c :: raw) self))) as Hk.
  { intros r. unfold recorded in *.
    destruct (decide ((c :: raw) = r)) as [<-|Hne].
    { by rewrite record_same. }
    destruct (decide (canonical = r)) as [->|Hcr].
    - rewrite record_stats_same by done. simpl.
      change (normalization_stats (add_found (c :: raw) self))
        with (normalization_stats self).
      case_decide; [done|]. apply elem_of_app. by left.
    - by rewrite record_stats_other. }
  destruct (mappings self !! _); simpl; apply Hk.
Qed.

Lemma normalize_index_ok raw self :
  index_ok self → index_ok (normalize raw self).2.
Proof.
  intros Hok. destruct raw as [|c raw]; [done|].
  pose proof (normalize_config (c :: raw) self) as Hcfg.
  pose proof (normalize_found (c :: raw) self ltac:(done)) as Hfound.
  assert (∃ r, normalize (c :: raw) self
               = (r, _record_normalization (c :: raw) r (add_found (c :: raw) self)))
    as [r Hn].
  { unfold normalize. destruct (mappings self !! _); by eexists. }
  assert ((normalize (c :: raw) self).1 = r) as Hr by (by rewrite Hn).
  rewrite Hn in Hcfg, Hfound |- *. simpl in *.
  set (self' := _record_normalization (c :: raw) r (add_found (c :: raw) self)) in *.
  assert (∀ o, (normalize o self').1 = (normalize o self).1) as Hsame.
  { intros o. symmetry. by apply normalize_result. }
  intros canonical variations Hl.
  destruct (decide ((c :: raw) = r)) as [Heq|Hne].
  { subst self'. rewrite <- Heq, record_same in Hl. 
    destruct (Hok _ _ Hl) as (H1 & H2 & H3 & H4). split_and!; try done.
    intros o Ho. destruct (H4 o Ho) as [Hf Hc]. rewrite Hfound, Hsame.
    split; [|done]. apply elem_of_union. by right. }
  destruct (decide (canonical = r)) as [->|Hcr].
  - subst self'. rewrite record_stats_same in Hl by done.
    change (normalization_stats (add_found (c :: raw) self))
      with (normalization_stats self) in Hl.
    injection Hl as <-. simpl.
    destruct (normalization_stats self !! r) as [l|] eqn:Hlr; simpl.
    + destruct (Hok _ _ Hlr) as (H1 & H2 & H3 & H4).
      case_decide as Hin.
      * split_and!; try done. intros o Ho. destruct (H4 o Ho) as [Hf Hc].
        rewrite Hfound, Hsame. split; [|done]. apply elem_of_union. by right.
      * split_and!.
        -- by destruct l.
        -- apply NoDup_app. split_and!; [done| |apply NoDup_singleton].
           intros x Hx ->%list_elem_of_singleton. done.
        -- intros [?| ->%list_elem_of_singleton]%elem_of_app; done.
        -- intros o [Ho| ->%list_elem_of_singleton]%elem_of_app.
           ++ destruct (H4 o Ho) as [Hf Hc]. rewrite Hfound, Hsame.
              split; [|done]. apply elem_of_union. by right.
           ++ rewrite Hfound, Hsame. split; [|done].
              apply elem_of_union. left. by apply elem_of_singleton.
    + try rewrite decide_False by (by intros ?%elem_of_nil). simpl. split_and!.
      * done.
      * apply NoDup_singleton.
      * by intros ->%list_elem_of_singleton.
      * intros o ->%list_elem_of_singleton. rewrite Hfound, Hsame. split; [|done].
        apply elem_of_union. left. by apply elem_of_singleton.
  - subst self'. rewrite record_stats_other in Hl by done.
    change (normalization_stats (add_found (c :: raw) self))
      with (normalization_stats self) in Hl.
    destruct (Hok _ _ Hl) as (H1 & H2 & H3 & H4). split_and!; try done.
    intros o Ho. destruct (H4 o Ho) as [Hf Hc]. rewrite Hfound, Hsame.
    split; [|done]. apply elem_of_union. by right.
Qed.
End RunFacts.

(** X5: normalizing a name a second time changes nothing: the second call
    returns the same canonical name and leaves the set of originals and the
    consolidation index as the first call left them. *)
Theorem normalize_again_changes_nothing `{PyLib} (raw : str)
    (self : SchoolNameNormalizer) :
  normalize raw (normalize raw self).2
  = ((normalize raw self).1, (normalize raw self).2).
Proof.
  destruct raw as [|c raw]; [done|].
  pose proof (normalize_result (c :: raw) _ _ (normalize_config (c :: raw) self)) as Hr.
  pose proof (normalize_config (c :: raw) self) as [Hm Hrs].
  revert Hr Hm Hrs. unfold normalize.
  set (k := _remove_accents (upper (strip (c :: raw)))).
  intros Hr Hm Hrs. cbv zeta in *.
  assert (∀ r self0, self0 = _record_normalization (c :: raw) r (add_found (c :: raw) self) →
            _record_normalization (c :: raw) r (add_found (c :: raw) self0) = self0)
    as Hfix.
  { intros r self0 ->. rewrite add_found_seen.
    - apply record_recorded_or_same.
    - rewrite record_found. apply elem_of_union. left. by apply elem_of_singleton. }
  destruct (mappings self !! k) as [v|] eqn:Hk; simpl in *.
  - rewrite <- Hm, Hk. simpl. f_equal. by apply Hfix.
  - rewrite <- Hm, Hk, <- Hrs. simpl. f_equal. by apply Hfix.
Qed.

(** X6: the canonical name returned for a raw name does not depend on the
    names normalized before it. *)
Theorem normalize_result_ignores_history `{PyLib} (names : list str) (raw : str)
    (self : SchoolNameNormalizer) :
  (normalize raw (normalize_all names self)).1 = (normalize raw self).1.
Proof. symmetry. apply normalize_result, normalize_all_config. Qed.

(** X7: a run keeps the consolidation index well formed: every list of
    originals stays free of repeats, not empty and without its own canonical
    name, and every original listed has been seen and normalizes to the
    canonical name it is listed under. *)
Theorem run_keeps_index_ok `{PyLib} (names : list str) (self : SchoolNameNormalizer) :
  index_ok self → index_ok (normalize_all names self).
Proof.
  unfold normalize_all. revert self.
  induction names as [|n names IH]; intros self Hok; simpl; [done|].
  by apply IH, normalize_index_ok.
Qed.

Lemma run_keeps_index_ok_witness :
  index_ok (H := ascii_lib) without_rules
  ∧ index_ok (H := ascii_lib)
      (normalize_all (H := ascii_lib) [u "ecole a"; u "Ecole A"; u "ecole a"] without_rules).
Proof.
  assert (index_ok (H := ascii_lib) without_rules) as Hok.
  { intros canonical variations Hl.
    change (normalization_stats without_rules) with (∅ : gmap str (list str)) in Hl.
    by rewrite lookup_empty in Hl. }
  split; [done|].
  exact (run_keeps_index_ok (H := ascii_lib) _ _ Hok).
Defined.

(** X8: nothing is forgotten during a run: a pair of the consolidation
    index and a name of the set of originals are still there after any
    further calls of normalize. *)
Theorem run_forgets_nothing `{PyLib} (names : list str) (original canonical seen : str)
    (self : SchoolNameNormalizer) :
  recorded original canonical self →
  seen ∈ found_schools self →
  recorded original canonical (normalize_all names self)
  ∧ seen ∈ found_schools (normalize_all names self).
Proof.
  intros Hrec Hseen. split.
  - unfold normalize_all. revert self Hrec Hseen.
    induction names as [|n names IH]; intros self Hrec Hseen; simpl; [done|].
    apply IH; [by apply normalize_recorded_stays|].
    destruct n as [|c n]; [done|]. rewrite normalize_found by done.
    apply elem_of_union. by right.
  - rewrite normalize_all_found. apply elem_of_union. by left.
Qed.

Lemma run_forgets_nothing_witness :
  recorded (u "ecole a") (u "ECOLE A")
    (normalize_all (H := ascii_lib) [u "ecole a"] without_rules)
  ∧ u "ecole a" ∈ found_schools
      (normalize_all (H := ascii_lib) [u "ecole a"] without_rules)
  ∧ recorded (u "ecole a") (u "ECOLE A")
      (normalize_all (H := ascii_lib) [u "ecole a"; u "Ecole B"; u ""] without_rules).
Proof.
  assert (recorded (u "ecole a") (u "ECOLE A")
            (normalize_all (H := ascii_lib) [u "ecole a"] without_rules)) as Hrec.
  { unfold recorded. vm_compute. left. }
  assert (u "ecole a" ∈ found_schools
            (normalize_all (H := ascii_lib) [u "ecole a"] without_rules)) as Hseen.
  { rewrite normalize_all_found. apply elem_of_union. right.
    apply elem_of_list_to_set. vm_compute. left. }
  split; [done|]. split; [done|].
  exact (proj1 (run_forgets_nothing (H := ascii_lib) [u "Ecole B"; u ""] _ _ _ _
                  Hrec Hseen)).
Defined.

(** ** Names and tags of the records *)

Section RecordFields.
Context `{PyLib}.

Lemma normalize_found_mono raw self :
  found_schools self ⊆ found_schools (normalize raw self).2.
Proof.
  destruct raw as [|c raw]; [done|]. rewrite normalize_found by done.
  apply union_subseteq_r.
Qed.

Lemma name_or_stem_nonempty school stem : stem ≠ [] → name_or_stem school stem ≠ [].
Proof. intros Hs. by destruct school as [[|c s]|]. Qed.

Lemma match_records_fields school norm agent_name source text entry r :
  r ∈ match_records school norm agent_name source text entry →
  ecole r = school ∧ ecole_normalized r = norm ∧ agent r = agent_name
  ∧ source_fichier r = source ∧ periode r = None ∧ type_repas r = None.
Proof.
  destruct entry as [cat pattern]. unfold match_records.
  destruct (re_search pattern text) as [groups|]; [|by intros ?%elem_of_nil].
  intros ([i jour] & _ & Hr)%list_elem_of_omap.
  repeat case_match; simplify_eq; done.
Qed.

Lemma page_records_fields school norm agent_name source text r :
  r ∈ page_records school norm agent_name source text →
  ecole r = school ∧ ecole_normalized r = norm ∧ agent r = agent_name
  ∧ source_fichier r = source ∧ periode r = None ∧ type_repas r = None.
Proof.
  unfold page_records. rewrite list_elem_of_In, in_flat_map.
  intros (entry & _ & Hr%list_elem_of_In). by eapply match_records_fields.
Qed.

Lemma extract_page_found_mono stem source page self :
  found_schools self ⊆ found_schools (extract_page stem source page self).2.
Proof.
  unfold extract_page. destruct page as [[|c text]|]; try done.
  destruct (foldl scan_line _ _) as [school agent_name].
  pose proof (normalize_found_mono (name_or_stem school stem) self) as Hm.
  by destruct (normalize _ self).
Qed.

Lemma extract_from_pdf_found_mono stem source pages self :
  found_schools self ⊆ found_schools (extract_from_pdf stem source pages self).2.
Proof.
  revert self. induction pages as [|page pages IH]; intros self; simpl; [done|].
  pose proof (extract_page_found_mono stem source page self) as Hp.
  destruct (extract_page stem source page self) as [rs self1]. simpl in *.
  specialize (IH self1).
  destruct (extract_from_pdf stem source pages self1) as [rs' self2]. simpl in *.
  by etrans.
Qed.

Lemma extract_page_names stem source page self r :
  r ∈ (extract_page stem source page self).1 →
  ecole_normalized r = (normalize (ecole r) self).1
  ∧ source_fichier r = source
  ∧ (stem ≠ [] →
     ecole r ≠ [] ∧ ecole r ∈ found_schools (extract_page stem source page self).2).
Proof.
  unfold extract_page. destruct page as [[|c text]|]; try by intros ?%elem_of_nil.
  destruct (foldl scan_line _ _) as [school agent_name].
  pose proof (normalize_found (name_or_stem school stem) self) as Hf.
  destruct (normalize (name_or_stem school stem) self) as [norm self1] eqn:Hn.
  simpl. intros (He & Hnorm & _ & Hs & _)%page_records_fields.
  rewrite He, Hnorm, Hn. split; [done|]. split; [done|].
  intros Hstem. pose proof (name_or_stem_nonempty school stem Hstem) as Hne.
  split; [done|]. simpl in Hf. rewrite Hf by done.
  apply elem_of_union. left. by apply elem_of_singleton.
Qed.

Lemma extract_sheet_found_mono stem source sheet self :
  found_schools self ⊆ found_schools (extract_sheet stem source sheet self).2.
Proof.
  unfold extract_sheet.
  destruct (scan_meta sheet) as [[school agent_name] period].
  pose proof (normalize_found_mono (name_or_stem school stem) self) as Hm.
  destruct (normalize _ self). by destruct (_extract_table_data sheet).
Qed.

Lemma extract_from_excel_found_mono stem source sheets self :
  found_schools self ⊆ found_schools (extract_from_excel stem source sheets self).2.
Proof.
  revert self. induction sheets as [|sheet sheets IH]; intros self; simpl; [done|].
  pose proof (extract_sheet_found_mono stem source sheet self) as Hp.
  destruct (extract_sheet stem source sheet self) as [[e|rs] self1]; [done|].
  simpl in *. specialize (IH self1).
  destruct (extract_from_excel stem source sheets self1) as [[e|rs'] self2];
    simpl in *; by etrans.
Qed.

Lemma extract_sheet_names stem source sheet self rs self' r :
  extract_sheet stem source sheet self = (inr rs, self') →
  r ∈ rs →
  ecole_normalized r = (normalize (ecole r) self).1
  ∧ source_fichier r = source
  ∧ (stem ≠ [] → ecole r ≠ [] ∧ ecole r ∈ found_schools self').
Proof.
  unfold extract_sheet.
  destruct (scan_meta sheet) as [[school agent_name] period].
  pose proof (normalize_found (name_or_stem school stem) self) as Hf.
  destruct (normalize (name_or_stem school stem) self) as [norm self1] eqn:Hn.
  destruct (_extract_table_data sheet) as [e|rows]; [done|].
  intros [= <- <-] (row & -> & _)%list_elem_of_fmap. simpl.
  rewrite Hn. split; [done|]. split; [done|].
  intros Hstem. pose proof (name_or_stem_nonempty school stem Hstem) as Hne.
  split; [done|]. simpl in Hf. rewrite Hf by done.
  apply elem_of_union. left. by apply elem_of_singleton.
Qed.

Lemma scan_lines_without_school lines agent_name :
  Forall (λ line, mentions_school line = false) lines →
  (foldl scan_line (None, agent_name) lines).1 = None.
Proof.
  intros Hl. revert agent_name.
  induction Hl as [|line lines Hline Hl IH]; intros agent_name; simpl; [done|].
  unfold scan_line at 2. unfold mentions_school in Hline. rewrite Hline. simpl.
  destruct (contains (u "AGENT") (upper line)); [|apply IH].
  destruct (re_label line); apply IH.
Qed.
End RecordFields.

(** X9: every record of a PDF document names the file it comes from and
    carries, as canonical name, the normalization of its school name under
    the configuration the extraction started with; when the stem of the file
    name is not empty, the school name is not empty and is in the set of
    originals once the document is read. *)
Theorem pdf_records_carry_their_names `{PyLib} (stem source : str)
    (pages : list (option str)) (self : SchoolNameNormalizer) (r : OrderRecord) :
  r ∈ (extract_from_pdf stem source pages self).1 →
  ecole_normalized r = (normalize (ecole r) self).1
  ∧ source_fichier r = source
  ∧ (stem ≠ [] →
     ecole r ≠ []
     ∧ ecole r ∈ found_schools (extract_from_pdf stem source pages self).2).
Proof.
  revert self. induction pages as [|page pages IH]; intros self; simpl.
  - by intros ?%elem_of_nil.
  - pose proof (extract_page_names stem source page self r) as Hp.
    pose proof (extract_page_config stem source page self) as Hc.
    destruct (extract_page stem source page self) as [rs self1]. simpl in *.
    pose proof (extract_from_pdf_found_mono stem source pages self1) as Hm.
    specialize (IH self1).
    destruct (extract_from_pdf stem source pages self1) as [rs' self2]. simpl in *.
    intros [Hin|Hin]%elem_of_app.
    + destruct (Hp Hin) as (Hn & Hs & Hf). split; [done|]. split; [done|].
      intros Hstem. destruct (Hf Hstem) as [Hne Hfound]. split; [done|].
      by apply Hm.
    + destruct (IH Hin) as (Hn & Hs & Hf). split; [|done].
      rewrite Hn. symmetry. by apply normalize_result.
Qed.

Lemma pdf_records_carry_their_names_witness :
  (extract_from_pdf (H := ascii_lib) (u "cantine") (u "cantine.pdf")
     [Some (u "Ecole : Jean Moulin" ++ [10] ++ u "Halal 0 0 0 2")] without_rules).1
  = [ {| ecole := u "Jean Moulin"; ecole_normalized := u "JEAN MOULIN";
         agent := None; periode := None; type_repas := None;
         categorie := u "Halal"; jour_semaine := u "Jeudi"; quantite := 2;
         source_fichier := u "cantine.pdf" |} ]
  ∧ (normalize (H := ascii_lib) (u "Jean Moulin") without_rules).1 = u "JEAN MOULIN".
Proof.
  assert ((extract_from_pdf (H := ascii_lib) (u "cantine") (u "cantine.pdf")
     [Some (u "Ecole : Jean Moulin" ++ [10] ++ u "Halal 0 0 0 2")] without_rules).1
  = [ {| ecole := u "Jean Moulin"; ecole_normalized := u "JEAN MOULIN";
         agent := None; periode := None; type_repas := None;
         categorie := u "Halal"; jour_semaine := u "Jeudi"; quantite := 2;
         source_fichier := u "cantine.pdf" |} ]) as He by (by vm_compute).
  split; [done|].
  refine (eq_sym (proj1 (pdf_records_carry_their_names (H := ascii_lib) (u "cantine")
            (u "cantine.pdf") [Some (u "Ecole : Jean Moulin" ++ [10] ++ u "Halal 0 0 0 2")]
            without_rules
            {| ecole := u "Jean Moulin"; ecole_normalized := u "JEAN MOULIN";
               agent := None; periode := None; type_repas := None;
               categorie := u "Halal"; jour_semaine := u "Jeudi"; quantite := 2;
               source_fichier := u "cantine.pdf" |} _))).
  rewrite He. left.
Defined.

(** X10: every record of a workbook names the file it comes from and
    carries, as canonical name, the normalization of its school name under
    the configuration the extraction started with; when the stem of the file
    name is not empty, the school name is not empty and is in the set of
    originals once the workbook is read. *)
Theorem excel_records_carry_their_names `{PyLib} (stem source : str)
    (sheets : list (list (list cell))) (self self' : SchoolNameNormalizer)
    (rs : list OrderRecord) (r : OrderRecord) :
  extract_from_excel stem source sheets self = (inr rs, self') →
  r ∈ rs →
  ecole_normalized r = (normalize (ecole r) self).1
  ∧ source_fichier r = source
  ∧ (stem ≠ [] → ecole r ≠ [] ∧ ecole r ∈ found_schools self').
Proof.
  revert self rs self'. induction sheets as [|sheet sheets IH]; intros self rs self'; simpl.
  - intros [= <- <-]. by intros ?%elem_of_nil.
  - pose proof (extract_sheet_names stem source sheet self) as Hp.
    pose proof (extract_sheet_config stem source sheet self) as Hc.
    destruct (extract_sheet stem source sheet self) as [[e|rs1] self1]; [done|].
    simpl in *.
    pose proof (extract_from_excel_found_mono stem source sheets self1) as Hm.
    specialize (IH self1).
    destruct (extract_from_excel stem source sheets self1) as [[e|rs2] self2]; [done|].
    simpl in *. intros [= <- <-] [Hin|Hin]%elem_of_app.
    + destruct (Hp _ _ r eq_refl Hin) as (Hn & Hs & Hf). split; [done|]. split; [done|].
      intros Hstem. destruct (Hf Hstem) as [Hne Hfound]. split; [done|].
      by apply Hm.
    + destruct (IH _ _ eq_refl Hin) as (Hn & Hs & Hf). split; [|done].
      rewrite Hn. symmetry. by apply normalize_result.
Qed.

Lemma excel_records_carry_their_names_witness :
  extract_from_excel (H := ascii_lib) (u "a") (u "a.xlsx") [plain_sheet] without_rules
  = (inr [ {| ecole := u "a"; ecole_normalized := u "A"; agent := None;
             periode := None; type_repas := Some (u "Enfants");
             categorie := u "Standard"; jour_semaine := u "Lundi";
             quantite := 10; source_fichier := u "a.xlsx" |} ],
     (normalize (H := ascii_lib) (u "a") without_rules).2)
  ∧ u "a" ∈ found_schools (normalize (H := ascii_lib) (u "a") without_rules).2.
Proof.
  assert (extract_from_excel (H := ascii_lib) (u "a") (u "a.xlsx") [plain_sheet] without_rules
  = (inr [ {| ecole := u "a"; ecole_normalized := u "A"; agent := None;
             periode := None; type_repas := Some (u "Enfants");
             categorie := u "Standard"; jour_semaine := u "Lundi";
             quantite := 10; source_fichier := u "a.xlsx" |} ],
     (normalize (H := ascii_lib) (u "a") without_rules).2)) as He by (by vm_compute).
  split; [done|].
  refine (proj2 (proj2 (proj2 (excel_records_carry_their_names (H := ascii_lib) _ _ _ _ _ _
            {| ecole := u "a"; ecole_normalized := u "A"; agent := None;
               periode := None; type_repas := Some (u "Enfants");
               categorie := u "Standard"; jour_semaine := u "Lundi";
               quantite := 10; source_fichier := u "a.xlsx" |} He _)) _)).
  - left.
  - done.
Defined.

(** X11: on a page where no line holds RESTAURANT or ECOLE, every record
    takes the stem of the file name as school name. *)
Theorem page_without_school_line_uses_stem `{PyLib} (stem source text : str)
    (self : SchoolNameNormalizer) (r : OrderRecord) :
  Forall (λ line, mentions_school line = false) (split_lines text) →
  r ∈ (extract_page stem source (Some text) self).1 →
  ecole r = stem.
Proof.
  intros Hl. unfold extract_page. destruct text as [|c text]; [by intros ?%elem_of_nil|].
  pose proof (scan_lines_without_school _ None Hl) as Hs.
  destruct (foldl scan_line _ _) as [school agent_name]. simpl in Hs. subst school.
  destruct (normalize _ self) as [norm self1]. simpl.
  by intros (He & _)%page_records_fields.
Qed.

Lemma page_without_school_line_uses_stem_witness :
  Forall (λ line, mentions_school (H := ascii_lib) line = false)
    (split_lines (u "Agent : Paul" ++ [10] ++ u "Standard 1 0 0 0"))
  ∧ (extract_page (H := ascii_lib) (u "jean-moulin") (u "jean-moulin.pdf")
       (Some (u "Agent : Paul" ++ [10] ++ u "Standard 1 0 0 0")) without_rules).1
    = [ {| ecole := u "jean-moulin"; ecole_normalized := u "JEAN-MOULIN";
           agent := Some (u "Paul"); periode := None; type_repas := None;
           categorie := u "Standard"; jour_semaine := u "Lundi"; quantite := 1;
           source_fichier := u "jean-moulin.pdf" |} ]
  ∧ u "jean-moulin" = u "jean-moulin".
Proof.
  assert (Forall (λ line, mentions_school (H := ascii_lib) line = false)
            (split_lines (u "Agent : Paul" ++ [10] ++ u "Standard 1 0 0 0"))) as Hl.
  { assert (split_lines (u "Agent : Paul" ++ [10] ++ u "Standard 1 0 0 0")
            = [u "Agent : Paul"; u "Standard 1 0 0 0"]) as -> by (by vm_compute).
    repeat (apply Forall_cons; split); try apply Forall_nil; by vm_compute. }
  assert ((extract_page (H := ascii_lib) (u "jean-moulin") (u "jean-moulin.pdf")
       (Some (u "Agent : Paul" ++ [10] ++ u "Standard 1 0 0 0")) without_rules).1
    = [ {| ecole := u "jean-moulin"; ecole_normalized := u "JEAN-MOULIN";
           agent := Some (u "Paul"); periode := None; type_repas := None;
           categorie := u "Standard"; jour_semaine := u "Lundi"; quantite := 1;
           source_fichier := u "jean-moulin.pdf" |} ]) as He by (by vm_compute).
  split; [done|]. split; [done|].
  refine (page_without_school_line_uses_stem (H := ascii_lib) (u "jean-moulin")
            (u "jean-moulin.pdf") _ without_rules
            {| ecole := u "jean-moulin"; ecole_normalized := u "JEAN-MOULIN";
               agent := Some (u "Paul"); periode := None; type_repas := None;
               categorie := u "Standard"; jour_semaine := u "Lundi"; quantite := 1;
               source_fichier := u "jean-moulin.pdf" |} Hl _).
  rewrite He. left.
Defined.

(** ** Bounds and tags *)

Section Bounds.
Context `{PyLib}.

Lemma match_records_length school norm agent_name source text entry :
  (length (match_records school norm agent_name source text entry) ≤ 4)%nat.
Proof.
  destruct entry as [cat pattern].
  destruct (re_search pattern text) as [groups|] eqn:Hs.
  - destruct (re_search_length _ _ _ Hs) as (g1 & g2 & g3 & g4 & ->).
    rewrite (match_records_positional _ _ _ _ _ _ _ _ _ _ _ Hs), length_fmap.
    etrans; [apply length_filter|]. simpl. lia.
  - unfold match_records. rewrite Hs. simpl. lia.
Qed.

Lemma match_records_of_category school norm agent_name source text entry c :
  entry.1 ≠ c →
  filter (λ r, categorie r = c) (match_records school norm agent_name source text entry)
  = [].
Proof.
  intros Hne.
  destruct (filter _ _) as [|r t] eqn:Hf; [done|].
  assert (r ∈ filter (λ r, categorie r = c)
                (match_records school norm agent_name source text entry)) as Hr
    by (rewrite Hf; left).
  apply list_elem_of_filter in Hr as [Hc Hr].
  apply match_records_categorie in Hr. congruence.
Qed.

Lemma match_records_category_length school norm agent_name source text entry c :
  (length (filter (λ r, categorie r = c)
             (match_records school norm agent_name source text entry))
   ≤ if decide (entry.1 = c) then 4 else 0)%nat.
Proof.
  case_decide as Hc.
  - etrans; [apply length_filter|]. apply match_records_length.
  - by rewrite match_records_of_category.
Qed.

Lemma dict_set_values {V} (P : V → Prop) k v (d : list (nat * V)) :
  P v → Forall (λ kv, P kv.2) d → Forall (λ kv, P kv.2) (dict_set k v d).
Proof.
  intros Hv Hd. induction Hd as [|[k' v'] d Hkv Hd IH]; simpl.
  - by apply Forall_singleton.
  - case_decide; apply Forall_cons; by split.
Qed.

Lemma scan_cell_values row_idx col_idx c st :
  Forall (λ kv, kv.2 ∈ JOURS_UPPER) st.2 →
  Forall (λ kv, kv.2 ∈ JOURS_UPPER) (scan_cell row_idx col_idx c st).2.
Proof.
  intros Hst. unfold scan_cell. destruct c as [|s| | | |]; try done.
  destruct (truthy (CStr s)); [|done]. case_bool_decide; [|done].
  simpl. by apply (dict_set_values (λ v, v ∈ JOURS_UPPER)).
Qed.

Lemma scan_row_values row_idx col_idx row st :
  Forall (λ kv, kv.2 ∈ JOURS_UPPER) st.2 →
  Forall (λ kv, kv.2 ∈ JOURS_UPPER) (scan_row row_idx col_idx row st).2.
Proof.
  revert col_idx st. induction row as [|c row IH]; intros col_idx st Hst; simpl; [done|].
  by apply IH, scan_cell_values.
Qed.

Lemma scan_header_values row_idx rows st :
  Forall (λ kv, kv.2 ∈ JOURS_UPPER) st.2 →
  Forall (λ kv, kv.2 ∈ JOURS_UPPER) (scan_header row_idx rows st).2.
Proof.
  revert row_idx st. induction rows as [|row rows IH]; intros row_idx st Hst; simpl; [done|].
  pose proof (scan_row_values row_idx 0 row st Hst) as Hr.
  destruct (scan_row row_idx 0 row st).1; [case_decide|]; try done; by apply IH.
Qed.

Lemma read_columns_tags current_type categorie row cols data data' :
  type_ok current_type →
  Forall (λ kv, kv.2 ∈ JOURS_UPPER) cols →
  Forall tags_ok data →
  read_columns current_type categorie row cols data = inr data' →
  Forall tags_ok data'.
Proof.
  intros Ht Hcols. revert data.
  induction Hcols as [|[col_idx jour] cols Hj Hcols IH]; intros data Hd; simpl.
  - by intros [= <-].
  - destruct (read_quantity _ _ _ _ _) as [e|[r|]] eqn:Hq.
    + destruct (caught e); [by apply IH|done].
    + apply IH. apply Forall_app; split; [done|]. apply Forall_singleton.
      unfold read_quantity in Hq. repeat case_match; simplify_eq.
      split; [|done]. cbn [row_jour_semaine].
      by apply (list_elem_of_fmap_2 title).
    + by apply IH.
Qed.

Lemma read_body_tags cols rows current_type data data' :
  type_ok current_type →
  Forall (λ kv, kv.2 ∈ JOURS_UPPER) cols →
  Forall tags_ok data →
  read_body cols rows current_type data = inr data' →
  Forall tags_ok data'.
Proof.
  intros Ht Hcols. revert current_type data Ht.
  induction rows as [|row rows IH]; intros current_type data Ht Hd; simpl.
  - by intros [= <-].
  - destruct row as [|c0 row]; [done|].
    case_bool_decide as Hty.
    { apply IH; [|done]. right. by eexists. }
    case_bool_decide; [|by apply IH].
    destruct (read_columns _ _ _ _ _) as [e|data1] eqn:Hr; [done|].
    apply IH; [done|]. by apply (read_columns_tags _ _ _ _ _ _ Ht Hcols Hd Hr).
Qed.
End Bounds.

(** X12: a page yields at most four records for a category, hence at most
    twenty records; further lines of the same category on the page add
    nothing. *)
Theorem page_yields_at_most_four_per_category `{PyLib} (school norm : str)
    (agent_name : option str) (source text c : str) :
  (length (filter (λ r, categorie r = c)
             (page_records school norm agent_name source text)) ≤ 4)%nat
  ∧ (length (page_records school norm agent_name source text) ≤ 20)%nat.
Proof.
  unfold page_records, patterns. cbn [flat_map]. rewrite app_nil_r.
  rewrite !filter_app, !length_app. split.
  - repeat match goal with
      | |- context [length (filter _ (match_records ?s ?n ?a ?src ?t ?e))] =>
          let Hl := fresh "Hl" in
          pose proof (match_records_category_length s n a src t e c) as Hl;
          generalize dependent (length (filter (λ r, categorie r = c)
                                          (match_records s n a src t e)));
          intros
      end.
    cbn [fst] in *.
    repeat match goal with
      | H : context [decide (?x = c)] |- _ => destruct (decide (x = c))
      end; try lia;
      match goal with
      | H1 : ?x = c, H2 : ?y = c |- _ =>
          assert (x = y) as Habs by congruence; vm_compute in Habs; discriminate
      end.
  - repeat match goal with
      | |- context [length (match_records ?s ?n ?a ?src ?t ?e)] =>
          let Hl := fresh "Hl" in
          pose proof (match_records_length s n a src t e) as Hl;
          generalize dependent (length (match_records s n a src t e)); intros
      end.
    lia.
Qed.

(** X13: every row of a sheet carries the title case of one of the five
    weekday names, and either no type or the title case of the text of a
    type row (ENFANTS, ADULTES or MATERNELLE once uppercased). *)
Theorem table_rows_carry_known_tags `{PyLib} (sheet : list (list cell))
    (rows : list TableRow) (r : TableRow) :
  _extract_table_data sheet = inr rows →
  r ∈ rows →
  row_jour_semaine r ∈ title <$> JOURS_UPPER
  ∧ (row_type_repas r = None
     ∨ ∃ t, row_type_repas r = Some (title t) ∧ upper t ∈ TYPES_UPPER).
Proof.
  unfold _extract_table_data.
  pose proof (scan_header_values 1 sheet (None, []) (Forall_nil_2 _)) as Hv.
  destruct (scan_header 1 sheet (None, [])) as [header_row jours_colonnes].
  simpl in Hv. destruct jours_colonnes as [|col cols].
  - intros [= <-]. by intros ?%elem_of_nil.
  - intros Hb Hr.
    pose proof (read_body_tags _ _ None [] rows (or_introl eq_refl) Hv
                  (Forall_nil_2 _) Hb) as Hall.
    exact (proj1 (Forall_forall _ _) Hall r Hr).
Qed.

Lemma table_rows_carry_known_tags_witness :
  _extract_table_data (H := ascii_lib) plain_sheet
  = inr [ {| row_type_repas := Some (u "Enfants"); row_categorie := u "Standard";
             row_jour_semaine := u "Lundi"; row_quantite := 10 |} ]
  ∧ u "Lundi" ∈ ascii_title <$> JOURS_UPPER.
Proof.
  assert (_extract_table_data (H := ascii_lib) plain_sheet
          = inr [ {| row_type_repas := Some (u "Enfants"); row_categorie := u "Standard";
                     row_jour_semaine := u "Lundi"; row_quantite := 10 |} ]) as He
    by (by vm_compute).
  split; [done|].
  refine (proj1 (table_rows_carry_known_tags (H := ascii_lib) plain_sheet _
            {| row_type_repas := Some (u "Enfants"); row_categorie := u "Standard";
               row_jour_semaine := u "Lundi"; row_quantite := 10 |} He _)).
  left.
Defined.

(** ** Mapping files and the editor *)

Section MappingFiles.

Lemma load_mapping_nothing self : load_mapping None None self = self.
Proof. by destruct self. Qed.

Lemma json_in_object key data :
  json_in key data = inr true →
  (∃ v, json_get key data = inr v) ∨ ∀ k, json_get k data = inl TypeError.
Proof.
  destruct data as [| | | | |items]; simpl; try done; try (by right).
  intros [= Hin]. apply bool_decide_eq_true in Hin as [v Hv]. left. exists v.
  by rewrite Hv.
Qed.

Lemma read_replacements_some data rules :
  read_replacements data = inr (Some rules) → ∃ items, data = JObject items.
Proof.
  unfold read_replacements. destruct data as [| | | | |items]; simpl; try done.
  - by destruct (contains _ s).
  - by destruct (existsb _ elements).
  - by eexists.
Qed.

Lemma read_replacements_absent items :
  assoc (u "replacements") items = None →
  read_replacements (JObject items) = inr None.
Proof.
  intros Ha. unfold read_replacements. simpl. rewrite Ha.
  by rewrite bool_decide_eq_false_2 by (by intros [? ?]).
Qed.

Lemma rules_of_bad entries r e :
  r ∈ entries → rule_of r = inl e → ∃ e', rules_of entries = inl e'.
Proof.
  intros Hin Hr. induction Hin as [r entries|r r' entries Hin IH]; simpl.
  - rewrite Hr. by eexists.
  - destruct (rule_of r'); [by eexists|]. destruct (IH Hr) as [e' ->]. by eexists.
Qed.

Lemma mapM_as_item_of_mappings (m : gmap str str) :
  mapM as_item ((λ item, (item.1, JString item.2)) <$> map_to_list m)
  = Some (map_to_list m).
Proof.
  apply mapM_Some. induction (map_to_list m) as [|[k v] l IH]; simpl; [constructor|].
  by constructor.
Qed.

Lemma as_mappings_of_mappings (m : gmap str str) :
  as_mappings (json_of_mappings m) = Some m.
Proof.
  unfold as_mappings, json_of_mappings. rewrite mapM_as_item_of_mappings. simpl.
  by rewrite list_to_map_to_list.
Qed.
End MappingFiles.

(** X14: [load_mapping_file] never touches the set of originals or the
    consolidation index; when it answers [False] the whole state is as it
    was; a document that is not an object changes nothing; and a field that
    is absent from the document leaves the rule chain, respectively the
    mapping table, as it was. *)
Theorem load_mapping_file_frame (document : exn + json)
    (self self' : SchoolNameNormalizer) (ok : bool) :
  load_mapping_file document self = Some (ok, self') →
  found_schools self' = found_schools self
  ∧ normalization_stats self' = normalization_stats self
  ∧ (ok = false → self' = self)
  ∧ (∀ data, document = inr data → (∀ items, data ≠ JObject items) → self' = self)
  ∧ (∀ items, document = inr (JObject items) →
       assoc (u "replacements") items = None → replacements self' = replacements self)
  ∧ (∀ items, document = inr (JObject items) →
       assoc (u "mappings") items = None → mappings self' = mappings self).
Proof.
  unfold load_mapping_file. destruct document as [e|data].
  { intros [= <- <-]. split_and!; try done. }
  destruct (read_replacements data) as [e|new_rules] eqn:Hr.
  { intros [= <- <-]. split_and!; try done. }
  destruct new_rules as [rules|]; simpl.
  - destruct (read_replacements_some _ _ Hr) as [items ->].
    destruct (mapM as_rule rules) as [typed|]; [|done]. simpl.
    destruct (assoc (u "mappings") items) as [m|] eqn:Hm.
    + rewrite bool_decide_eq_true_2 by (by eexists).
      destruct (as_mappings m) as [m'|]; [|done]. intros [= <- <-].
      split_and!; try done.
      * intros data [= <-] Hno. by destruct (Hno items).
      * intros items' [= <-] Ha. by rewrite read_replacements_absent in Hr.
      * intros items' [= <-] Ha. congruence.
    + rewrite bool_decide_eq_false_2 by (by intros [? ?]). intros [= <- <-].
      split_and!; try done.
      * intros data [= <-] Hno. by destruct (Hno items).
      * intros items' [= <-] Ha. by rewrite read_replacements_absent in Hr.
  - rewrite load_mapping_nothing.
    destruct (json_in (u "mappings") data) as [e|[|]] eqn:Hin.
    + intros [= <- <-]. split_and!; try done.
    + destruct (json_in_object _ _ Hin) as [[m Hm]|Hm]; rewrite Hm.
      * destruct data as [| | | | |items]; try done.
        destruct (as_mappings m) as [m'|]; [|done]. intros [= <- <-].
        split_and!; try done.
        -- intros data [= <-] Hno. by destruct (Hno items).
        -- intros items' [= <-] Ha. simpl in Hm. by rewrite Ha in Hm.
      * intros [= <- <-]. split_and!; try done.
    + intros [= <- <-]. split_and!; try done.
Qed.

Lemma load_mapping_file_frame_witness :
  load_mapping_file
    (inr (JObject [(u "mappings",
                    JObject [(u "STE AURELIE MAT", JString (u "SAINTE AURELIE"))])]))
    init
  = Some (true, with_mapping)
  ∧ replacements with_mapping = replacements init.
Proof.
  assert (load_mapping_file
    (inr (JObject [(u "mappings",
                    JObject [(u "STE AURELIE MAT", JString (u "SAINTE AURELIE"))])]))
    init = Some (true, with_mapping)) as Hl by (by vm_compute).
  split; [done|].
  destruct (load_mapping_file_frame _ _ _ _ Hl) as (_ & _ & _ & _ & Hr & _).
  by apply (Hr _ eq_refl).
Defined.

Section EditorFiles.

Lemma rule_of_bad r : is_rule_entry r = false → ∃ e, rule_of r = inl e.
Proof.
  unfold is_rule_entry, rule_of. destruct r as [| | | | |items]; simpl; try by eexists.
  destruct (assoc (u "pattern") items) as [p|]; [|by eexists].
  destruct (assoc (u "replace") items) as [q|]; [|by eexists].
  rewrite !bool_decide_eq_true_2 by (by eexists). done.
Qed.

Lemma download_items normalizer session date doc :
  download_mapping normalizer session date = Some doc →
  ∃ items,
    doc = JObject items
    ∧ assoc (u "replacements") items = Some (json_of_rules (replacements normalizer))
    ∧ assoc (u "mappings") items
      = Some (json_of_mappings (session ∪ mappings normalizer)).
Proof.
  unfold download_mapping. case_decide; [done|]. intros [= <-].
  eexists. split; [done|]. unfold assoc.
  split; repeat (rewrite decide_False by (by vm_compute)); by rewrite decide_True.
Qed.

Lemma rules_of_nil : rules_of [] = inr [].
Proof. done. Qed.
End EditorFiles.

(** X15: one entry of [replacements] that is not an object with the keys
    [pattern] and [replace] makes [load_mapping_file] answer [False] and
    leave everything as it was, the mappings of the same document
    included. *)
Theorem bad_rule_entry_rejects_file (items : list (str * json)) (entries : list json)
    (r : json) (self : SchoolNameNormalizer) :
  assoc (u "replacements") items = Some (JArray entries) →
  r ∈ entries →
  is_rule_entry r = false →
  load_mapping_file (inr (JObject items)) self = Some (false, self).
Proof.
  intros Ha Hin Hbad. unfold load_mapping_file, read_replacements. simpl.
  rewrite Ha. rewrite bool_decide_eq_true_2 by (by eexists). simpl.
  destruct (rule_of_bad r Hbad) as [e He].
  by destruct (rules_of_bad entries r e Hin He) as [e' ->].
Qed.

Lemma bad_rule_entry_rejects_file_witness :
  assoc (u "replacements")
    [ (u "replacements", JArray [JObject [(u "pattern", JString (u "ST"))]]);
      (u "mappings", JObject [(u "A", JString (u "B"))]) ]
  = Some (JArray [JObject [(u "pattern", JString (u "ST"))]])
  ∧ is_rule_entry (JObject [(u "pattern", JString (u "ST"))]) = false
  ∧ load_mapping_file
      (inr (JObject
              [ (u "replacements", JArray [JObject [(u "pattern", JString (u "ST"))]]);
                (u "mappings", JObject [(u "A", JString (u "B"))]) ])) init
    = Some (false, init).
Proof.
  split; [by vm_compute|]. split; [by vm_compute|].
  apply (bad_rule_entry_rejects_file _ [JObject [(u "pattern", JString (u "ST"))]]
           (JObject [(u "pattern", JString (u "ST"))]));
    [by vm_compute|left|by vm_compute].
Defined.

(** X16: a file written by the mapping editor while the rule chain is not
    empty is refused by [load_mapping_file]: the editor writes each rule as
    a pair, the loader reads each rule as an object. *)
Theorem editor_file_is_refused (normalizer : SchoolNameNormalizer)
    (session_mappings : gmap str str) (date_generated : str) (doc : json)
    (self : SchoolNameNormalizer) :
  replacements normalizer ≠ [] →
  download_mapping normalizer session_mappings date_generated = Some doc →
  load_mapping_file (inr doc) self = Some (false, self).
Proof.
  intros Hne Hd. destruct (download_items _ _ _ _ Hd) as (items & -> & Hr & _).
  destruct (replacements normalizer) as [|rule rules] eqn:Hrs; [done|].
  unfold load_mapping_file, read_replacements. simpl.
  rewrite Hr. by rewrite bool_decide_eq_true_2 by (by eexists).
Qed.

Lemma editor_file_is_refused_witness :
  replacements init ≠ []
  ∧ ∃ doc,
      download_mapping init {[ u "STE AURELIE MAT" := u "SAINTE AURELIE" ]}
        (u "2024-09-02T10:00:00") = Some doc
      ∧ load_mapping_file (inr doc) init = Some (false, init).
Proof.
  split; [done|].
  destruct (download_mapping init {[ u "STE AURELIE MAT" := u "SAINTE AURELIE" ]}
              (u "2024-09-02T10:00:00")) as [doc|] eqn:Hd; [|by vm_compute in Hd].
  exists doc. split; [done|].
  by apply (editor_file_is_refused init _ _ doc init ltac:(done) Hd).
Defined.

(** X17: a file written by the mapping editor while the rule chain is empty
    is accepted: the loader keeps the empty chain and takes as mapping table
    the session mappings laid over the mappings the editor's normalizer
    had. *)
Theorem editor_file_loads_without_rules (normalizer : SchoolNameNormalizer)
    (session_mappings : gmap str str) (date_generated : str) (doc : json)
    (self : SchoolNameNormalizer) :
  replacements normalizer = [] →
  download_mapping normalizer session_mappings date_generated = Some doc →
  load_mapping_file (inr doc) self
  = Some (true,
          load_mapping (Some []) (Some (session_mappings ∪ mappings normalizer)) self).
Proof.
  intros Hrs Hd. destruct (download_items _ _ _ _ Hd) as (items & -> & Hr & Hm).
  rewrite Hrs in Hr.
  remember (json_of_mappings (session_mappings ∪ mappings normalizer)) as jm eqn:Hjm.
  unfold load_mapping_file, read_replacements. simpl.
  rewrite Hr, Hm. rewrite !bool_decide_eq_true_2 by (by eexists). simpl.
  subst jm. by rewrite as_mappings_of_mappings.
Qed.

Lemma editor_file_loads_without_rules_witness :
  replacements without_rules = []
  ∧ ∃ doc,
      download_mapping without_rules {[ u "STE AURELIE MAT" := u "SAINTE AURELIE" ]}
        (u "2024-09-02T10:00:00") = Some doc
      ∧ load_mapping_file (inr doc) init
        = Some (true,
                load_mapping (Some [])
                  (Some ({[ u "STE AURELIE MAT" := u "SAINTE AURELIE" ]}
                         ∪ mappings without_rules)) init).
Proof.
  split; [done|].
  destruct (download_mapping without_rules {[ u "STE AURELIE MAT" := u "SAINTE AURELIE" ]}
              (u "2024-09-02T10:00:00")) as [doc|] eqn:Hd; [|by vm_compute in Hd].
  exists doc. split; [done|].
  by apply (editor_file_loads_without_rules without_rules _ _ doc init eq_refl Hd).
Defined.

(** X18: a mapping entered in the editor for a name is the one [normalize]
    finds for that name: once the session mappings are part of the mapping
    table, the name as typed normalizes to the canonical name as entered,
    trimmed and uppercased. *)
Theorem added_mapping_is_found `{PyLib} (original canonical : str)
    (session session' : gmap str str) (self : SchoolNameNormalizer) :
  add_mapping original canonical session = Some session' →
  original ≠ [] →
  session' ⊆ mappings self →
  (normalize original self).1 = upper (strip canonical).
Proof.
  unfold add_mapping. intros Ha Hne Hsub.
  destruct (upper (strip original)) as [|c o] eqn:Ho; [done|].
  destruct (upper (strip canonical)) as [|c' o'] eqn:Hc; [done|].
  injection Ha as <-.
  assert (mappings self !! key original = Some (c' :: o')) as Hk.
  { eapply lookup_weaken; [|exact Hsub]. unfold key, _remove_accents. rewrite Ho.
    apply lookup_insert_eq. }
  unfold normalize, key in *. destruct original as [|x original]; [done|].
  by rewrite Hk.
Qed.

Lemma added_mapping_is_found_witness :
  add_mapping (H := ascii_lib) (u " Ste Aurelie Mat") (u "sainte aurelie ") ∅
  = Some (mappings with_mapping)
  ∧ u " Ste Aurelie Mat" ≠ []
  ∧ mappings with_mapping ⊆ mappings with_mapping
  ∧ (normalize (H := ascii_lib) (u " Ste Aurelie Mat") with_mapping).1
    = u "SAINTE AURELIE".
Proof.
  assert (add_mapping (H := ascii_lib) (u " Ste Aurelie Mat") (u "sainte aurelie ") ∅
          = Some (mappings with_mapping)) as Ha by (by vm_compute).
  split; [done|]. split; [done|]. split; [done|].
  rewrite (added_mapping_is_found (H := ascii_lib) _ _ _ _ with_mapping Ha);
    [by vm_compute|done|done].
Defined.

(** ** The report *)

Section ReportFacts.

Lemma report_steps_append report items :
  foldl report_step report items = report ++ foldl report_step [] items.
Proof.
  revert report. induction items as [|item items IH]; intros report; simpl.
  - by rewrite app_nil_r.
  - rewrite IH, (IH (report_step [] item)). unfold report_step.
    destruct (1 <? length item.2)%nat; simpl; [by rewrite <- app_assoc|done].
Qed.

Lemma report_steps_single report items :
  Forall (λ item : str * list str, length item.2 ≤ 1)%nat items →
  foldl report_step report items = report.
Proof.
  intros Hs. revert report.
  induction Hs as [|item items Hi Hs IH]; intros report; simpl; [done|].
  unfold report_step at 2. rewrite (proj2 (Nat.ltb_ge _ _)) by done. apply IH.
Qed.

Lemma sorted_items_elem stats canonical variations :
  (canonical, variations) ∈ sorted_items stats ↔ stats !! canonical = Some variations.
Proof.
  unfold sorted_items. rewrite merge_sort_Permutation. apply elem_of_map_to_list.
Qed.
End ReportFacts.

(** X19: the report lists every canonical name that took in at least two
    originals, with the lines of all its originals; when no canonical name
    took in more than one original the report is its header line alone; with
    an empty index it is the sentence [Aucune normalisation effectuée]. *)
Theorem report_lists_consolidations (self : SchoolNameNormalizer) :
  (normalization_stats self = ∅ →
   get_normalization_report self = u "Aucune normalisation effectuée")
  ∧ (normalization_stats self ≠ ∅ →
     (∀ canonical variations,
        normalization_stats self !! canonical = Some variations →
        (1 < length variations)%nat →
        ∃ before after,
          get_normalization_report self
          = report_header self ++ before ++ report_block canonical variations ++ after)
     ∧ ((∀ canonical variations,
           normalization_stats self !! canonical = Some variations →
           (length variations ≤ 1)%nat) →
        get_normalization_report self = report_header self)).
Proof.
  unfold get_normalization_report. split.
  - intros He. by rewrite decide_True.
  - intros Hne. rewrite decide_False by done. split.
    + intros canonical variations Hl Hlen.
      apply sorted_items_elem, list_elem_of_split in Hl as (l1 & l2 & ->).
      rewrite foldl_app. cbn [foldl].
      rewrite (report_steps_append (report_step _ _)).
      rewrite (report_steps_append (report_header self) l1).
      unfold report_step at 1. cbn [fst snd].
      rewrite (proj2 (Nat.ltb_lt _ _)) by done.
      exists (foldl report_step [] l1), (foldl report_step [] l2).
      by rewrite <- !app_assoc.
    + intros Hs. apply report_steps_single, Forall_forall.
      intros [canonical variations] Hin%sorted_items_elem. simpl. by eapply Hs.
Qed.

Lemma report_lists_consolidations_witness :
  normalization_stats
    (normalize_all (H := ascii_lib) [u "ecole a"; u "Ecole A"; u "ECOLE B"] without_rules)
  ≠ ∅
  ∧ get_normalization_report
      (normalize_all (H := ascii_lib) [u "ecole a"; u "Ecole A"; u "ECOLE B"] without_rules)
    = u "✅ 1 noms d'écoles consolidés" ++ [10; 10]
      ++ u "📍 ECOLE A:" ++ [10]
      ++ u "   ← ecole a" ++ [10]
      ++ u "   ← Ecole A" ++ [10]
      ++ [10].
Proof.
  assert (normalization_stats
            (normalize_all (H := ascii_lib) [u "ecole a"; u "Ecole A"; u "ECOLE B"]
               without_rules) ≠ ∅) as Hne.
  { intros He. apply (f_equal (λ m, m !! u "ECOLE A")) in He. by vm_compute in He. }
  split; [done|].
  destruct (proj2 (report_lists_consolidations _) Hne) as [Hlist _].
  destruct (Hlist (u "ECOLE A") [u "ecole a"; u "Ecole A"]) as (before & after & Hr);
    [by vm_compute|simpl; lia|].
  by vm_compute.
Defined.

(** ** What a run leaves *)

Section RunLeaves.
Context `{PyLib}.
Variable save_fault : list OrderRecord → option exn.

Lemma extract_found_mono f a r a' :
  extract f a = Some (r, a') → found_schools a ⊆ found_schools a'.
Proof.
  unfold extract. case_bool_decide.
  - destruct (content f) as [sheets|pages|e].
    + intros [= He].
      pose proof (extract_from_excel_found_mono (stem f) (name f) sheets a) as Hm.
      by rewrite He in Hm.
    + by intros [= <- <-].
    + by intros [= <- <-].
  - case_bool_decide; [|done].
    destruct (content f) as [sheets|pages|e].
    + by intros [= <- <-].
    + pose proof (extract_from_pdf_found_mono (stem f) (name f) pages a) as Hm.
      destruct (extract_from_pdf _ _ _ a). by intros [= <- <-].
    + by intros [= <- <-].
Qed.

Lemma process_file_found_mono b f :
  found_schools (normalizer b) ⊆ found_schools (normalizer (process_file save_fault b f)).
Proof.
  unfold process_file. pose proof (extract_found_mono f (normalizer b)) as Hm.
  destruct (extract f (normalizer b)) as [[[e|data] self]|]; [| |done].
  - by apply (Hm _ _ eq_refl).
  - specialize (Hm _ _ eq_refl). destruct data as [|r data]; simpl; [done|].
    by destruct (save_fault (r :: data)).
Qed.

Lemma process_files_leave files b :
  same_config (normalizer b) (normalizer (foldl (process_file save_fault) b files))
  ∧ found_schools (normalizer b)
    ⊆ found_schools (normalizer (foldl (process_file save_fault) b files)).
Proof.
  revert b. induction files as [|f files IH]; intros b; simpl.
  - split; [apply same_config_refl|done].
  - destruct (IH (process_file save_fault b f)) as [Hc Hf].
    destruct (process_file_step save_fault b f) as (Hc' & _).
    split; [by eapply same_config_trans|].
    etrans; [apply process_file_found_mono|done].
Qed.

Lemma filter_disjoint_length {A} (P Q : A → Prop) `{∀ x, Decision (P x)}
    `{∀ x, Decision (Q x)} (l : list A) :
  (∀ x, P x → ¬ Q x) →
  (length (filter P l) + length (filter Q l) ≤ length l)%nat.
Proof.
  intros Hd. induction l as [|x l IH]; simpl; [done|].
  rewrite !filter_cons. destruct (decide (P x)) as [Hp|Hp].
  - rewrite decide_False by (by apply Hd). simpl. lia.
  - destruct (decide (Q x)); simpl; lia.
Qed.
End RunLeaves.

(** X20: a run changes neither the mapping table nor the rule chain, removes
    no name from the set of originals, and ends with counters of processed
    and errored files whose sum is at most the number of files. *)
Theorem run_leaves_configuration `{PyLib} (save_fault : list OrderRecord → option exn)
    (files : list File) (self : SchoolNameNormalizer) :
  same_config self (normalizer (run save_fault files self).2)
  ∧ found_schools self ⊆ found_schools (normalizer (run save_fault files self).2)
  ∧ ∀ summary,
      (run save_fault files self).1 = Some summary →
      (files_processed summary + files_errored summary ≤ files_total summary)%nat.
Proof.
  unfold run. destruct files as [|f files].
  - split; [apply same_config_refl|]. split; [done|]. by intros summary.
  - destruct (process_files_leave save_fault (f :: files) (start self)) as [Hc Hf].
    split; [exact Hc|]. split; [exact Hf|].
    intros summary [= <-]. cbn [files_processed files_errored files_total].
    destruct (process_files_counts save_fault (f :: files) (start self)) as [He Hp].
    cbn [foldl] in He, Hp. rewrite He, Hp.
    cbn [start errors processed normalizer]. rewrite !Nat.add_0_l, Nat.add_comm.
    apply (filter_disjoint_length
             (λ f, is_failed (outcome_of save_fault self f) = true)
             (λ f, is_stored (outcome_of save_fault self f) = true)).
    intros g Hfail. by destruct (outcome_of save_fault self g).
Qed.
